(** * simple_debugger.py: the debugger core, its snapshot builder and its
      command protocol

    The development embeds [src/simple_debugger.py]: the class
    [DebuggerCore] (a subclass of the standard library's [bdb.Bdb]), the
    functions [run_script] and [main].  The methods that [DebuggerCore]
    inherits and calls ([set_step], [set_next], [set_continue], [set_quit],
    [trace_dispatch] and the [dispatch_*] family, [stop_here], [run]) are
    embedded from CPython 3.11's [Lib/bdb.py]; the delivery of trace events
    follows [trace_trampoline] of CPython's [sysmodule.c].

    Python strings are [string] (one character per code point), Python
    integers are [Z], [None]-or-value is [option].

    What the model covers:
    - a bound value is seen through [repr] alone: it yields a text or
      raises; an exception carries its class and the text [str] gives;
    - a frame is a finite chain along [f_back]; [f_id] is the identity of
      the frame object;
    - the observer is the list of commands it will have put on the command
      queue by the time they are asked for; [cmd_queue.get()] on an empty
      queue never returns ([Blocked]);
    - the target is the sequence of its trace points, the way its run
      ends, and what it does with an exception that the trace callback
      raises into it;
    - no breakpoint is ever set and [skip] is [None], as in the program. *)

From Stdlib Require Import String Ascii List ZArith Bool Lia PeanoNat.
From Stdlib Require Import DecimalString.
From ExtLib Require Import Structures.Monad Structures.MonadExc
  Structures.MonadState Data.Monads.EitherMonad.
Import ListNotations MonadNotation.
Local Open Scope string_scope.
Local Open Scope monad_scope.

Set Implicit Arguments.

(* ===================================================================== *)
(** * Python values and exceptions *)
(* ===================================================================== *)

(** The exception classes the code tells apart.  [BdbQuit] and
    [StopIteration] derive from [Exception], and so does every class under
    [OtherException] ([ValueError], [RuntimeError], ...); [GeneratorExit],
    [KeyboardInterrupt] and [SystemExit] derive from [BaseException]
    only. *)
Inductive exc_class : Type :=
| BdbQuit
| StopIteration
| GeneratorExit
| KeyboardInterrupt
| SystemExit
| OtherException (name : string).

(** [issubclass(c, Exception)]: what an [except Exception:] clause
    catches. *)
Definition issubclass_Exception (c : exc_class) : bool :=
  match c with
  | GeneratorExit | KeyboardInterrupt | SystemExit => false
  | BdbQuit | StopIteration | OtherException _ => true
  end.

(** [issubclass(c, bdb.BdbQuit)]. *)
Definition issubclass_BdbQuit (c : exc_class) : bool :=
  match c with BdbQuit => true | _ => false end.

(** An exception instance: its class and the text [str(e)] returns. *)
Record BaseException : Type := mkExc { exc_type : exc_class; exc_text : string }.

Definition str (e : BaseException) : string := exc_text e.

(** A computation that returns a value or raises. *)
Definition pyresult : Type -> Type := sum BaseException.

(** [try: body except Exception: handler] *)
Definition try_except_Exception {A} (body : pyresult A)
    (handler : BaseException -> pyresult A) : pyresult A :=
  catch body
    (fun e => if issubclass_Exception (exc_type e) then handler e else raise e).

(** A bound value, seen through the one operation the debugger applies to
    it: [repr(v)] returns a text, or [v.__repr__] raises. *)
Inductive object : Type :=
| Obj (repr_text : string)
| BrokenRepr (e : BaseException).

Definition repr (v : object) : pyresult string :=
  match v with
  | Obj s => ret s
  | BrokenRepr e => raise e
  end.

(** [s[:n]] *)
Fixpoint slice_to (n : nat) (s : string) : string :=
  match n, s with
  | S n', String c s' => String c (slice_to n' s')
  | _, _ => EmptyString
  end.

(** [s.startswith(p)] *)
Definition startswith (s p : string) : bool := String.prefix p s.

(** A Python [dict] with string keys: the bindings in insertion order, no
    key bound twice. *)
Definition dict (V : Type) : Type := list (string * V).



(** [d[k] = v]: a bound key keeps its position, a new key goes last. *)
Fixpoint dict_setitem {V} (d : dict V) (k : string) (v : V) : dict V :=
  match d with
  | [] => [(k, v)]
  | (k', v') :: rest =>
      if String.eqb k k' then (k', v) :: rest
      else (k', v') :: dict_setitem rest k v
  end.

(** [pathlib.PurePosixPath(p).name]: the last component of [p], where empty
    components and ["."] components do not count; [""] when there is
    none. *)
Fixpoint path_parts (p : string) (cur : string) : list string :=
  match p with
  | EmptyString => [cur]
  | String c rest =>
      if Ascii.eqb c "/"%char then cur :: path_parts rest EmptyString
      else path_parts rest (cur ++ String c EmptyString)
  end.

Definition Path_name (p : string) : string :=
  last (filter (fun c => negb (String.eqb c "" || String.eqb c "."))
               (path_parts p EmptyString)) "".

(* ===================================================================== *)
(** * Frames *)
(* ===================================================================== *)

(** A code object; [co_generator] is
    [co_flags & GENERATOR_AND_COROUTINE_FLAGS != 0]. *)
Record code : Type := mkCode {
  co_filename : string;
  co_name : string;
  co_generator : bool
}.

(** A frame object.  [f_id] stands for the object's identity ([is]); the
    other fields are the attributes read at the moment of a trace event.
    [f_back] makes the stack a finite singly linked list. *)
#[local] Unset Elimination Schemes.
Inductive frame : Type :=
| Frame (id : nat) (c : code) (lineno : Z) (locs : dict object)
        (back : option frame).
#[local] Set Elimination Schemes.

Definition f_id (f : frame) : nat := let 'Frame i _ _ _ _ := f in i.
Definition f_code (f : frame) : code := let 'Frame _ c _ _ _ := f in c.
Definition f_lineno (f : frame) : Z := let 'Frame _ _ l _ _ := f in l.
Definition f_locals (f : frame) : dict object := let 'Frame _ _ _ d _ := f in d.
Definition f_back (f : frame) : option frame := let 'Frame _ _ _ _ b := f in b.

(** [f is g], with [g] possibly [None]. *)
Definition frame_is (f : frame) (g : option frame) : bool :=
  match g with
  | Some g' => Nat.eqb (f_id f) (f_id g')
  | None => false
  end.

(** Number of frames from [f] down to the root of the stack. *)
Fixpoint depth (f : frame) : nat :=
  match f with
  | Frame _ _ _ _ None => 1
  | Frame _ _ _ _ (Some b) => S (depth b)
  end.

(* ===================================================================== *)
(** * Snapshots *)
(* ===================================================================== *)

Module Entry.
(** One element of a snapshot's ['stack'] list. *)
Record t : Type := mk { filename : string; lineno : Z; function : string }.
End Entry.

(** The dict [_update_ui] and [run_script] put on the outward queue. *)
Record Snapshot : Type := mkSnapshot {
  filename : string;
  lineno : Z;
  function : string;
  locals : dict string;
  stack : list Entry.t;
  exception : option string
}.

(** [exc_info] of an ['exception'] trace event: [arg[1]] is the instance
    ([arg[0]] is its class), [arg[2]] the traceback or [None]. *)
Record exc_info : Type := mkExcInfo { ei_value : BaseException; ei_has_tb : bool }.

(** ** [DebuggerCore._safe_repr_dict]
<<
def _safe_repr_dict(self, d):
    result = {}
    for k, v in d.items():
        if k.startswith('__'):
            continue
        try:
            result[k] = repr(v)[:100]  # Truncate long reprs
        except Exception:
            result[k] = '<error getting repr>'
    return result
>> *)

Definition error_repr : string := "<error getting repr>".

Fixpoint _safe_repr_loop (items : list (string * object)) (result : dict string)
    : pyresult (dict string) :=
  match items with
  | [] => ret result
  | (k, v) :: rest =>
      if startswith k "__" then _safe_repr_loop rest result
      else
        result' <- try_except_Exception
                     (r <- repr v ;; ret (dict_setitem result k (slice_to 100 r)))
                     (fun _ => ret (dict_setitem result k error_repr)) ;;
        _safe_repr_loop rest result'
  end.

Definition _safe_repr_dict (d : dict object) : pyresult (dict string) :=
  _safe_repr_loop d [].

(** ** [DebuggerCore._get_stack_info]
<<
def _get_stack_info(self, frame):
    stack = []
    f = frame
    while f is not None:
        stack.append({
            'filename': Path(f.f_code.co_filename).name,
            'lineno': f.f_lineno,
            'function': f.f_code.co_name,
        })
        f = f.f_back
    return stack[:10]  # Limit depth
>> *)

Definition stack_entry (f : frame) : Entry.t :=
  Entry.mk (Path_name (co_filename (f_code f))) (f_lineno f) (co_name (f_code f)).

(** The [while f is not None] loop: one entry per frame, up to the root. *)
Fixpoint stack_walk (f : frame) : list Entry.t :=
  match f with
  | Frame _ _ _ _ None => [stack_entry f]
  | Frame _ _ _ _ (Some b) => stack_entry f :: stack_walk b
  end.

Definition _get_stack_info (f : frame) : list Entry.t :=
  firstn 10 (stack_walk f).

(** The dict display of [_update_ui], evaluated in source order:
<<
state = {
    'filename': frame.f_code.co_filename,
    'lineno': frame.f_lineno,
    'function': frame.f_code.co_name,
    'locals': self._safe_repr_dict(frame.f_locals),
    'stack': self._get_stack_info(frame),
    'exception': str(exception[1]) if exception else None,
}
>> *)
Definition build_state (f : frame) (exc : option exc_info) : pyresult Snapshot :=
  locs <- _safe_repr_dict (f_locals f) ;;
  ret (mkSnapshot (co_filename (f_code f)) (f_lineno f) (co_name (f_code f))
         locs (_get_stack_info f)
         (match exc with
          | Some ei => Some (str (ei_value ei))
          | None => None
          end)).

(* ===================================================================== *)
(** * The debugger object, the two queues and the tracing state *)
(* ===================================================================== *)

(** What crossed the two queues, in order.  The field [history] below is a
    record kept for the proofs; no operation reads it. *)
Inductive io_event : Type :=
| Put (s : Snapshot)
| Get (cmd : string).

(** The attributes of the [DebuggerCore] instance ([breaks] is the empty
    dict and [skip] is [None] throughout: nothing in the program sets
    them), the contents of its two [queue.Queue]s, and the interpreter's
    tracing state for the script thread. *)
Record State : Type := mkState {
  ui_queue : list Snapshot;
  cmd_queue : list string;
  current_frame : option frame;
  botframe : option frame;
  stopframe : option frame;
  returnframe : option frame;
  stoplineno : Z;
  quitting : bool;
  frame_returning : option frame;
  sys_trace : bool;          (* sys.settrace(self.trace_dispatch) is in force *)
  f_trace : list nat;        (* the frames whose f_trace attribute is set *)
  history : list io_event
}.

Definition with_ui_queue v s :=
  mkState v (cmd_queue s) (current_frame s) (botframe s) (stopframe s)
    (returnframe s) (stoplineno s) (quitting s) (frame_returning s)
    (sys_trace s) (f_trace s) (history s).
Definition with_cmd_queue v s :=
  mkState (ui_queue s) v (current_frame s) (botframe s) (stopframe s)
    (returnframe s) (stoplineno s) (quitting s) (frame_returning s)
    (sys_trace s) (f_trace s) (history s).
Definition with_current_frame v s :=
  mkState (ui_queue s) (cmd_queue s) v (botframe s) (stopframe s)
    (returnframe s) (stoplineno s) (quitting s) (frame_returning s)
    (sys_trace s) (f_trace s) (history s).
Definition with_botframe v s :=
  mkState (ui_queue s) (cmd_queue s) (current_frame s) v (stopframe s)
    (returnframe s) (stoplineno s) (quitting s) (frame_returning s)
    (sys_trace s) (f_trace s) (history s).
Definition with_stopframe v s :=
  mkState (ui_queue s) (cmd_queue s) (current_frame s) (botframe s) v
    (returnframe s) (stoplineno s) (quitting s) (frame_returning s)
    (sys_trace s) (f_trace s) (history s).
Definition with_returnframe v s :=
  mkState (ui_queue s) (cmd_queue s) (current_frame s) (botframe s) (stopframe s)
    v (stoplineno s) (quitting s) (frame_returning s)
    (sys_trace s) (f_trace s) (history s).
Definition with_stoplineno v s :=
  mkState (ui_queue s) (cmd_queue s) (current_frame s) (botframe s) (stopframe s)
    (returnframe s) v (quitting s) (frame_returning s)
    (sys_trace s) (f_trace s) (history s).
Definition with_quitting v s :=
  mkState (ui_queue s) (cmd_queue s) (current_frame s) (botframe s) (stopframe s)
    (returnframe s) (stoplineno s) v (frame_returning s)
    (sys_trace s) (f_trace s) (history s).
Definition with_frame_returning v s :=
  mkState (ui_queue s) (cmd_queue s) (current_frame s) (botframe s) (stopframe s)
    (returnframe s) (stoplineno s) (quitting s) v
    (sys_trace s) (f_trace s) (history s).
Definition with_sys_trace v s :=
  mkState (ui_queue s) (cmd_queue s) (current_frame s) (botframe s) (stopframe s)
    (returnframe s) (stoplineno s) (quitting s) (frame_returning s)
    v (f_trace s) (history s).
Definition with_f_trace v s :=
  mkState (ui_queue s) (cmd_queue s) (current_frame s) (botframe s) (stopframe s)
    (returnframe s) (stoplineno s) (quitting s) (frame_returning s)
    (sys_trace s) v (history s).
Definition with_history v s :=
  mkState (ui_queue s) (cmd_queue s) (current_frame s) (botframe s) (stopframe s)
    (returnframe s) (stoplineno s) (quitting s) (frame_returning s)
    (sys_trace s) (f_trace s) v.

(** How a call made by the script thread ends: it returns, it raises, or
    it never comes back because it sits in [cmd_queue.get()] on an empty
    queue. *)
Inductive outcome (A : Type) : Type :=
| Returned (a : A) (s : State)
| Raised (e : BaseException) (s : State)
| Blocked (s : State).
Arguments Returned {A} a s.
Arguments Raised {A} e s.
Arguments Blocked {A} s.

Definition Py (A : Type) : Type := State -> outcome A.

#[export] Instance Monad_Py : Monad Py := {
  ret := fun _ a s => Returned a s;
  bind := fun _ _ c k s =>
    match c s with
    | Returned a s' => k a s'
    | Raised e s' => Raised e s'
    | Blocked s' => Blocked s'
    end
}.

#[export] Instance MonadState_Py : MonadState State Py := {
  get := fun s => Returned s s;
  put := fun s' _ => Returned tt s'
}.

#[export] Instance MonadExc_Py : MonadExc BaseException Py := {
  raise := fun _ e s => Raised e s;
  catch := fun _ c h s =>
    match c s with
    | Raised e s' => h e s'
    | r => r
    end
}.

Definition update (f : State -> State) : Py unit := fun s => Returned tt (f s).

(** A computation without effects, run by the script thread. *)
Definition lift {A} (r : pyresult A) : Py A :=
  match r with
  | inl e => raise e
  | inr a => ret a
  end.

(** [queue.Queue.put] on [ui_queue]: unbounded, never blocks. *)
Definition ui_queue_put (snap : Snapshot) : Py unit :=
  update (fun s =>
    with_history (history s ++ [Put snap]) (with_ui_queue (ui_queue s ++ [snap]) s)).

(** [queue.Queue.get] on [cmd_queue]: takes the oldest item, blocks while
    there is none. *)
Definition cmd_queue_get : Py string :=
  fun s =>
    match cmd_queue s with
    | [] => Blocked s
    | cmd :: rest =>
        Returned cmd (with_history (history s ++ [Get cmd]) (with_cmd_queue rest s))
    end.

(* ===================================================================== *)
(** * [bdb.Bdb]: the stepping state *)
(* ===================================================================== *)

Definition isSome {A} (o : option A) : bool :=
  match o with Some _ => true | None => false end.

(** [Bdb._set_stopinfo]:
<<
def _set_stopinfo(self, stopframe, returnframe, stoplineno=0):
    self.stopframe = stopframe
    self.returnframe = returnframe
    self.quitting = False
    # stoplineno >= 0 means: stop at line >= the stoplineno
    # stoplineno -1 means: don't stop at all
    self.stoplineno = stoplineno
>> *)
Definition _set_stopinfo (stopframe' returnframe' : option frame) (stoplineno' : Z)
    : Py unit :=
  update (fun s =>
    with_stoplineno stoplineno'
      (with_quitting false
         (with_returnframe returnframe' (with_stopframe stopframe' s)))).

Definition add_f_trace (f : frame) (s : State) : State :=
  if existsb (Nat.eqb (f_id f)) (f_trace s) then s
  else with_f_trace (f_id f :: f_trace s) s.

Definition del_f_trace (ids : list nat) (s : State) : State :=
  with_f_trace
    (filter (fun i => negb (existsb (Nat.eqb i) ids)) (f_trace s)) s.

(** [Bdb.set_step]:
<<
def set_step(self):
    if self.frame_returning:
        caller_frame = self.frame_returning.f_back
        if caller_frame and not caller_frame.f_trace:
            caller_frame.f_trace = self.trace_dispatch
    self._set_stopinfo(None, None)
>> *)
Definition set_step : Py unit :=
  s <- get ;;
  match frame_returning s with
  | Some fr =>
      match f_back fr with
      | Some caller_frame => update (add_f_trace caller_frame)
      | None => ret tt
      end
  | None => ret tt
  end ;;
  _set_stopinfo None None 0.

(** [Bdb.set_next]:
<<
def set_next(self, frame):
    self._set_stopinfo(frame, None)
>> *)
Definition set_next (f : frame) : Py unit :=
  _set_stopinfo (Some f) None 0.

(** The frames visited by the loop of [set_continue]:
    [while frame and frame is not self.botframe], from the paused frame
    outward (the debugger's own frames above it carry no trace function). *)
Fixpoint frames_down_to (bot : option frame) (f : frame) : list nat :=
  match f with
  | Frame i _ _ _ back =>
      if frame_is f bot then []
      else i :: match back with
                | Some b => frames_down_to bot b
                | None => []
                end
  end.

(** [Bdb.set_continue], called with [paused] as the innermost frame of
    the target on the stack.  [self.breaks] is empty, so the branch
    [if not self.breaks] is always taken.
<<
def set_continue(self):
    # Don't stop except at breakpoints or when finished
    self._set_stopinfo(self.botframe, None, -1)
    if not self.breaks:
        # no breakpoints; run without debugger overhead
        sys.settrace(None)
        frame = sys._getframe().f_back
        while frame and frame is not self.botframe:
            del frame.f_trace
            frame = frame.f_back
>> *)
Definition set_continue (paused : frame) : Py unit :=
  s <- get ;;
  _set_stopinfo (botframe s) None (-1) ;;
  update (with_sys_trace false) ;;
  update (del_f_trace (frames_down_to (botframe s) paused)).

(** [Bdb.set_quit]:
<<
def set_quit(self):
    self.stopframe = self.botframe
    self.returnframe = None
    self.quitting = True
    sys.settrace(None)
>> *)
Definition set_quit : Py unit :=
  s <- get ;;
  update (with_stopframe (botframe s)) ;;
  update (with_returnframe None) ;;
  update (with_quitting true) ;;
  update (with_sys_trace false).

(* ===================================================================== *)
(** * [DebuggerCore] *)
(* ===================================================================== *)

(** [DebuggerCore._update_ui(frame, exception)]: the dict above, then
    [self.ui_queue.put(state)]. *)
Definition _update_ui (f : frame) (exc : option exc_info) : Py unit :=
  state <- lift (build_state f exc) ;;
  ui_queue_put state.

(** [DebuggerCore._wait_for_command]:
<<
def _wait_for_command(self, frame):
    cmd = self.cmd_queue.get()
    if cmd == 'step':
        self.set_step()
    elif cmd == 'next':
        self.set_next(frame)
    elif cmd == 'continue':
        self.set_continue()
    elif cmd == 'quit':
        self.set_quit()
>> *)
Definition _wait_for_command (f : frame) : Py unit :=
  cmd <- cmd_queue_get ;;
  if String.eqb cmd "step" then set_step
  else if String.eqb cmd "next" then set_next f
  else if String.eqb cmd "continue" then set_continue f
  else if String.eqb cmd "quit" then set_quit
  else ret tt.

(** [DebuggerCore.user_line]:
<<
def user_line(self, frame):
    self.current_frame = frame
    self._update_ui(frame)
    self._wait_for_command(frame)
>> *)
Definition user_line (f : frame) : Py unit :=
  update (with_current_frame (Some f)) ;;
  _update_ui f None ;;
  _wait_for_command f.

(** [DebuggerCore.user_exception]:
<<
def user_exception(self, frame, exc_info):
    self.current_frame = frame
    self._update_ui(frame, exception=exc_info)
    self._wait_for_command(frame)
>> *)
Definition user_exception (f : frame) (ei : exc_info) : Py unit :=
  update (with_current_frame (Some f)) ;;
  _update_ui f (Some ei) ;;
  _wait_for_command f.

(** [Bdb.user_call] and [Bdb.user_return] are not overridden: [pass]. *)
Definition user_call (f : frame) : Py unit := ret tt.
Definition user_return (f : frame) : Py unit := ret tt.

(* ===================================================================== *)
(** * [bdb.Bdb]: dispatch of trace events *)
(* ===================================================================== *)

(** [Bdb.stop_here], with [self.skip] being [None]:
<<
def stop_here(self, frame):
    if self.skip and \
           self.is_skipped_module(frame.f_globals.get('__name__')):
        return False
    if frame is self.stopframe:
        if self.stoplineno == -1:
            return False
        return frame.f_lineno >= self.stoplineno
    if not self.stopframe:
        return True
    return False
>> *)
Definition stop_here (s : State) (f : frame) : bool :=
  if frame_is f (stopframe s) then
    if (stoplineno s =? -1)%Z then false
    else (stoplineno s <=? f_lineno f)%Z
  else negb (isSome (stopframe s)).

(** [Bdb.break_here] and [Bdb.break_anywhere] with [self.breaks == {}]. *)
Definition break_here (s : State) (f : frame) : bool := false.
Definition break_anywhere (s : State) (f : frame) : bool := false.

Definition BdbQuit_raised : BaseException := mkExc BdbQuit "".

(** [if self.quitting: raise BdbQuit] *)
Definition raise_if_quitting : Py unit :=
  s <- get ;;
  if quitting s then raise BdbQuit_raised else ret tt.

(** The trace events of [sys.settrace]. *)
Inductive event : Type :=
| ev_line
| ev_call
| ev_return
| ev_exception (arg : exc_info).

(** The [dispatch_*] methods return [self.trace_dispatch] ([true]) or
    [None] ([false]).
<<
def dispatch_line(self, frame):
    if self.stop_here(frame) or self.break_here(frame):
        self.user_line(frame)
        if self.quitting: raise BdbQuit
    return self.trace_dispatch

def dispatch_call(self, frame, arg):
    if self.botframe is None:
        # First call of dispatch since reset()
        self.botframe = frame.f_back # (CT) Note that this may also be None!
        return self.trace_dispatch
    if not (self.stop_here(frame) or self.break_anywhere(frame)):
        # No need to trace this function
        return # None
    # Ignore call events in generator except when stepping.
    if self.stopframe and frame.f_code.co_flags & GENERATOR_AND_COROUTINE_FLAGS:
        return self.trace_dispatch
    self.user_call(frame, arg)
    if self.quitting: raise BdbQuit
    return self.trace_dispatch

def dispatch_return(self, frame, arg):
    if self.stop_here(frame) or frame == self.returnframe:
        # Ignore return events in generator except when stepping.
        if self.stopframe and frame.f_code.co_flags & GENERATOR_AND_COROUTINE_FLAGS:
            return self.trace_dispatch
        try:
            self.frame_returning = frame
            self.user_return(frame, arg)
        finally:
            self.frame_returning = None
        if self.quitting: raise BdbQuit
        # The user issued a 'next' or 'until' command.
        if self.stopframe is frame and self.stoplineno != -1:
            self._set_stopinfo(None, None)
    return self.trace_dispatch

def dispatch_exception(self, frame, arg):
    if self.stop_here(frame):
        # When stepping with next/until/return in a generator frame, skip
        # the internal StopIteration exception (with no traceback)
        # triggered by a subiterator run with the 'yield from' statement.
        if not (frame.f_code.co_flags & GENERATOR_AND_COROUTINE_FLAGS
                and arg[0] is StopIteration and arg[2] is None):
            self.user_exception(frame, arg)
            if self.quitting: raise BdbQuit
    # Stop at the StopIteration or GeneratorExit exception when the user
    # has set stopframe in a generator by issuing a return command, or a
    # next/until command at the last statement in the generator before the
    # exception.
    elif (self.stopframe and frame is not self.stopframe
            and self.stopframe.f_code.co_flags & GENERATOR_AND_COROUTINE_FLAGS
            and arg[0] in (StopIteration, GeneratorExit)):
        self.user_exception(frame, arg)
        if self.quitting: raise BdbQuit
    return self.trace_dispatch
>> *)
Definition dispatch_line (f : frame) : Py bool :=
  s <- get ;;
  (if stop_here s f || break_here s f
   then user_line f ;; raise_if_quitting
   else ret tt) ;;
  ret true.

Definition dispatch_call (f : frame) : Py bool :=
  s <- get ;;
  match botframe s with
  | None => update (with_botframe (f_back f)) ;; ret true
  | Some _ =>
      if negb (stop_here s f || break_anywhere s f) then ret false
      else if isSome (stopframe s) && co_generator (f_code f) then ret true
      else user_call f ;; raise_if_quitting ;; ret true
  end.

Definition dispatch_return (f : frame) : Py bool :=
  s <- get ;;
  if stop_here s f || frame_is f (returnframe s) then
    if isSome (stopframe s) && co_generator (f_code f) then ret true
    else
      update (with_frame_returning (Some f)) ;;
      user_return f ;;
      update (with_frame_returning None) ;;
      raise_if_quitting ;;
      s' <- get ;;
      (if frame_is f (stopframe s') && negb (stoplineno s' =? -1)%Z
       then _set_stopinfo None None 0
       else ret tt) ;;
      ret true
  else ret true.

Definition is_StopIteration (c : exc_class) : bool :=
  match c with StopIteration => true | _ => false end.

Definition is_StopIteration_or_GeneratorExit (c : exc_class) : bool :=
  match c with StopIteration | GeneratorExit => true | _ => false end.

Definition dispatch_exception (f : frame) (arg : exc_info) : Py bool :=
  s <- get ;;
  (if stop_here s f then
     if negb (co_generator (f_code f)
              && is_StopIteration (exc_type (ei_value arg))
              && negb (ei_has_tb arg))
     then user_exception f arg ;; raise_if_quitting
     else ret tt
   else
     if match stopframe s with
        | Some sf =>
            negb (frame_is f (stopframe s))
            && co_generator (f_code sf)
            && is_StopIteration_or_GeneratorExit (exc_type (ei_value arg))
        | None => false
        end
     then user_exception f arg ;; raise_if_quitting
     else ret tt) ;;
  ret true.

(** [Bdb.trace_dispatch], for the four events of [sys.settrace]:
<<
def trace_dispatch(self, frame, event, arg):
    if self.quitting:
        return # None
    if event == 'line':
        return self.dispatch_line(frame)
    if event == 'call':
        return self.dispatch_call(frame, arg)
    if event == 'return':
        return self.dispatch_return(frame, arg)
    if event == 'exception':
        return self.dispatch_exception(frame, arg)
    ...
>> *)
Definition trace_dispatch (f : frame) (ev : event) : Py bool :=
  s <- get ;;
  if quitting s then ret false
  else
    match ev with
    | ev_line => dispatch_line f
    | ev_call => dispatch_call f
    | ev_return => dispatch_return f
    | ev_exception arg => dispatch_exception f arg
    end.

(** [Bdb.reset]:
<<
def reset(self):
    import linecache
    linecache.checkcache()
    self.botframe = None
    self._set_stopinfo(None, None)
>> *)
Definition reset : Py unit :=
  update (with_botframe None) ;;
  _set_stopinfo None None 0.

(* ===================================================================== *)
(** * The interpreter's side of tracing, and the target *)
(* ===================================================================== *)

(** One point of the target's execution at which the interpreter would
    raise a trace event if tracing is on.  [tp_escape e] tells what the
    target does with an exception [e] raised by the trace callback at this
    point: [Some e'] when an exception [e'] finally leaves the top-level
    frame ([Some e] itself for a target without a matching handler), [None]
    when the target handles it and then runs to its normal end.  (After a
    trace callback has raised, the interpreter has switched tracing off:
    no later event of the target is delivered.) *)
Record trace_point : Type := mkPoint {
  tp_frame : frame;
  tp_event : event;
  tp_escape : BaseException -> option BaseException
}.

(** A compiled target: the trace points of its run in order, and how the
    run ends ([None]: the top-level code returns; [Some e]: [e] escapes
    the top-level frame). *)
Record target : Type := mkTarget {
  tg_points : list trace_point;
  tg_result : option BaseException
}.

Definition has_f_trace (s : State) (f : frame) : bool :=
  existsb (Nat.eqb (f_id f)) (f_trace s).

(** [trace_trampoline] of [Python/sysmodule.c]: a ['call'] event goes to
    the function set by [sys.settrace], any other event to the frame's
    [f_trace] if it is set; a result other than [None] is stored in
    [f_trace]; when the callback raises, tracing is switched off and
    [f_trace] is cleared.
<<
if (what == PyTrace_CALL) callback = self;
else callback = frame->f_trace;
if (callback == NULL) return 0;
result = call_trampoline(tstate, callback, frame, what, arg);
if (result == NULL) {
    _PyEval_SetTrace(tstate, NULL, NULL);
    Py_CLEAR(frame->f_trace);
    return -1;
}
if (result != Py_None) Py_XSETREF(frame->f_trace, result);
else Py_DECREF(result);
return 0;
>> *)
Definition deliver (tp : trace_point) : Py unit :=
  s <- get ;;
  let f := tp_frame tp in
  if negb (sys_trace s) then ret tt
  else if match tp_event tp with ev_call => true | _ => has_f_trace s f end
  then
    catch
      (r <- trace_dispatch f (tp_event tp) ;;
       if r then update (add_f_trace f) else ret tt)
      (fun e =>
         update (with_sys_trace false) ;;
         update (del_f_trace [f_id f]) ;;
         raise e)
  else ret tt.

(** [exec(cmd, globals, locals)] under tracing. *)
Fixpoint exec_points (points : list trace_point) (result : option BaseException)
    : Py unit :=
  match points with
  | [] =>
      match result with
      | None => ret tt
      | Some e => raise e
      end
  | tp :: rest =>
      fun s =>
        match deliver tp s with
        | Returned _ s' => exec_points rest result s'
        | Raised e s' =>
            match tp_escape tp e with
            | Some e' => Raised e' s'
            | None => Returned tt s'
            end
        | Blocked s' => Blocked s'
        end
  end.

Definition exec (tg : target) : Py unit :=
  exec_points (tg_points tg) (tg_result tg).

(** [Bdb.run]:
<<
def run(self, cmd, globals=None, locals=None):
    ...
    self.reset()
    ...
    sys.settrace(self.trace_dispatch)
    try:
        exec(cmd, globals, locals)
    except BdbQuit:
        pass
    finally:
        self.quitting = True
        sys.settrace(None)
>> *)
Definition run (tg : target) : Py unit :=
  reset ;;
  update (with_sys_trace true) ;;
  fun s =>
    let finally_ := fun s' => with_sys_trace false (with_quitting true s') in
    match exec tg s with
    | Returned _ s' => Returned tt (finally_ s')
    | Raised e s' =>
        if issubclass_BdbQuit (exc_type e) then Returned tt (finally_ s')
        else Raised e (finally_ s')
    | Blocked s' => Blocked s'
    end.

(* ===================================================================== *)
(** * [run_script] and [main] *)
(* ===================================================================== *)

(** The dict put by the [except Exception as e] clause of [run_script]. *)
Definition failure_state (script_path : string) (e : BaseException) : Snapshot :=
  mkSnapshot script_path 0 "<module>" [] [] (Some (str e)).

(** [run_script()], the body of the script thread.  [loaded] is the result
    of [open(script_path)], [f.read()] and [compile(...)]: the target, or
    the exception one of them raised.
<<
def run_script():
    try:
        with open(script_path) as f:
            code = compile(f.read(), script_path, 'exec')
        script_globals = {...}
        debugger.run(code, script_globals)
    except bdb.BdbQuit:
        pass
    except Exception as e:
        ui_queue.put({
            'filename': script_path,
            'lineno': 0,
            'function': '<module>',
            'locals': {},
            'stack': [],
            'exception': str(e),
        })
>> *)
Definition run_script (script_path : string) (loaded : pyresult target) : Py unit :=
  fun s =>
    match (code <- lift loaded ;; run code) s with
    | Raised e s' =>
        if issubclass_BdbQuit (exc_type e) then Returned tt s'
        else if issubclass_Exception (exc_type e)
             then ui_queue_put (failure_state script_path e) s'
             else Raised e s'
    | r => r
    end.

(** The state in which [run_debugger] starts the script thread: two empty
    queues (the commands of [pending] are the ones the observer will have
    put by the time they are asked for), a fresh [DebuggerCore]. *)
Definition initial_state (pending : list string) : State :=
  mkState [] pending None None None None 0 false None false [] [].

(** How [main] ends: [sys.exit(code)], or the call of [run_debugger]. *)
Inductive main_end : Type :=
| sys_exit (status : Z)
| run_debugger (script_path : string).

Definition usage : list string :=
  [ "Usage: python simple_debugger.py <script.py>";
    String "010" "Controls:";
    "  s - Step into";
    "  n - Step over (next)";
    "  c - Continue";
    "  q - Quit" ].

(** [main()], given [sys.argv] and the file system's answer to
    [Path(p).exists()]; returns the lines printed and how it ends. *)
Definition main (argv : list string) (path_exists : string -> bool)
    : list string * main_end :=
  if (length argv <? 2)%nat then (usage, sys_exit 1)
  else
    let script_path := nth 1 argv "" in
    if negb (path_exists script_path)
    then (["Error: " ++ script_path ++ " not found"], sys_exit 1)
    else ([], run_debugger script_path).

(* ===================================================================== *)
(** * Notions used by the statements *)
(* ===================================================================== *)

(** The text shown for a value that [_safe_repr_dict] can render. *)
Definition display (v : object) : string :=
  match v with
  | Obj s => slice_to 100 s
  | BrokenRepr _ => error_repr
  end.


Definition dunder (k : string) : bool := startswith k "__".





(** Queue traffic made of whole pauses: each snapshot put is followed by
    one command taken. *)
Inductive paired : list io_event -> Prop :=
| paired_nil : paired []
| paired_cons (snap : Snapshot) (cmd : string) (l : list io_event) :
    paired l -> paired (Put snap :: Get cmd :: l).

Fixpoint puts (l : list io_event) : list Snapshot :=
  match l with
  | [] => []
  | Put s :: r => s :: puts r
  | Get _ :: r => puts r
  end.

Fixpoint gets (l : list io_event) : list string :=
  match l with
  | [] => []
  | Put _ :: r => gets r
  | Get c :: r => c :: gets r
  end.

(** Between [s] and [s'] the queue traffic was exactly [io]. *)
Definition traffic (s s' : State) (io : list io_event) : Prop :=
  history s' = (history s ++ io)%list /\
  ui_queue s' = (ui_queue s ++ puts io)%list /\
  cmd_queue s = (gets io ++ cmd_queue s')%list.

(** A change of fields other than the queues and the history. *)
Definition quiet (s s' : State) : Prop :=
  ui_queue s' = ui_queue s /\ cmd_queue s' = cmd_queue s /\ history s' = history s.

(** A call that comes back (returning or raising) without queue
    traffic. *)
Definition quiet_outcome {A} (s : State) (o : outcome A) : Prop :=
  match o with
  | Returned _ s' | Raised _ s' => quiet s s'
  | Blocked _ => False
  end.

(** What a pause ([user_line], [user_exception]) may do to the queues. *)
Definition pause_protocol (s : State) (o : outcome unit) : Prop :=
  match o with
  | Returned _ s' => exists snap cmd, traffic s s' [Put snap; Get cmd]
  | Blocked s' => cmd_queue s = [] /\ exists snap, traffic s s' [Put snap]
  | Raised e s' => issubclass_Exception (exc_type e) = false /\ traffic s s' []
  end.

(** What the handling of one trace event may do to the queues: nothing, or
    one pause. *)
Definition step_protocol {A} (s : State) (o : outcome A) : Prop :=
  match o with
  | Returned _ s' | Raised _ s' =>
      traffic s s' [] \/ exists snap cmd, traffic s s' [Put snap; Get cmd]
  | Blocked s' => exists snap, traffic s s' [Put snap]
  end.

(** What a run of the target may do to the queues. *)
Definition run_protocol (s : State) (o : outcome unit) : Prop :=
  match o with
  | Returned _ s' | Raised _ s' =>
      exists io, paired io /\ traffic s s' io /\
                 length (puts io) = length (gets io)
  | Blocked s' =>
      exists io snap, paired io /\ traffic s s' (io ++ [Put snap])%list
  end.

Definition recognized (cmd : string) : bool :=
  String.eqb cmd "step" || String.eqb cmd "next"
  || String.eqb cmd "continue" || String.eqb cmd "quit".

(** The stepping state and the tracing state are the same in [s] and
    [s']. *)
Definition same_directive (s s' : State) : Prop :=
  stopframe s' = stopframe s /\ returnframe s' = returnframe s /\
  stoplineno s' = stoplineno s /\ quitting s' = quitting s /\
  botframe s' = botframe s /\ frame_returning s' = frame_returning s /\
  sys_trace s' = sys_trace s /\ f_trace s' = f_trace s.

(** The stepping state that [set_next F] leaves. *)
Definition stepping_over (F : frame) (s : State) : Prop :=
  stopframe s = Some F /\ stoplineno s = 0%Z /\ returnframe s = None /\
  quitting s = false.

(** The state in which [Bdb.run] enters [exec]: after [self.reset()] and
    [sys.settrace(self.trace_dispatch)]. *)
Definition started (s : State) : State :=
  with_sys_trace true
    (with_stoplineno 0 (with_quitting false
       (with_returnframe None (with_stopframe None (with_botframe None s))))).

(** The state in which [Bdb.run] leaves: its [finally] clause has run. *)
Definition finished (s : State) : State :=
  with_sys_trace false (with_quitting true s).

(** The [exc_info] a pause at this event passes to [_update_ui]. *)
Definition exception_of (ev : event) : option exc_info :=
  match ev with
  | ev_exception arg => Some arg
  | _ => None
  end.

(** The trace point [tp], reached in state [s], makes the debugger pause:
    the event is delivered and its dispatcher calls [user_line] or
    [user_exception]. *)
Definition pauses (s : State) (tp : trace_point) : bool :=
  let f := tp_frame tp in
  sys_trace s && has_f_trace s f && negb (quitting s) &&
  match tp_event tp with
  | ev_line => stop_here s f || break_here s f
  | ev_exception arg =>
      if stop_here s f then
        negb (co_generator (f_code f)
              && is_StopIteration (exc_type (ei_value arg))
              && negb (ei_has_tb arg))
      else
        match stopframe s with
        | Some sf =>
            negb (frame_is f (stopframe s))
            && co_generator (f_code sf)
            && is_StopIteration_or_GeneratorExit (exc_type (ei_value arg))
        | None => false
        end
  | ev_call | ev_return => false
  end.

(** The common body of [user_line] and [user_exception]. *)
Definition pause (f : frame) (exc : option exc_info) : Py unit :=
  update (with_current_frame (Some f)) ;;
  _update_ui f exc ;;
  _wait_for_command f.

(** The state an outcome carries. *)
Definition state_of {A} (o : outcome A) : State :=
  match o with
  | Returned _ s | Raised _ s | Blocked s => s
  end.


(** The trace points of a list delivered one after the other; the call
    returns when every callback has returned. *)
Fixpoint deliver_all (points : list trace_point) : Py unit :=
  match points with
  | [] => ret tt
  | tp :: rest => deliver tp ;; deliver_all rest
  end.

(* ===================================================================== *)
(** * Example targets *)
(* ===================================================================== *)

(** The frames of the script thread below the target's module frame:
    [Thread._bootstrap], [Thread._bootstrap_inner], [Thread.run],
    [run_script] and [Bdb.run] ([exec] is a builtin and has no frame). *)
Definition thread_bootstrap : frame :=
  Frame 0 (mkCode "/usr/lib/python3.11/threading.py" "_bootstrap" false) 995 [] None.
Definition thread_bootstrap_inner : frame :=
  Frame 1 (mkCode "/usr/lib/python3.11/threading.py" "_bootstrap_inner" false)
    1038 [] (Some thread_bootstrap).
Definition thread_run : frame :=
  Frame 2 (mkCode "/usr/lib/python3.11/threading.py" "run" false)
    975 [] (Some thread_bootstrap_inner).
Definition run_script_frame : frame :=
  Frame 3 (mkCode "simple_debugger.py" "run_script" false) 296 [] (Some thread_run).
Definition bdb_run_frame : frame :=
  Frame 4 (mkCode "/usr/lib/python3.11/bdb.py" "run" false) 597 []
    (Some run_script_frame).

(** A trace point of a target that has no handler for what the trace
    callback raises there. *)
Definition point (f : frame) (ev : event) : trace_point := mkPoint f ev Some.

Definition module_globals (path : string) : dict object :=
  [ ("__name__", Obj "'__main__'");
    ("__file__", Obj ("'" ++ path ++ "'"));
    ("__builtins__", Obj "<module 'builtins' (built-in)>") ].

(** [boom.py]:
<<
1  def f():
2      return 1
3  x = f()
4  try:
5      raise KeyError("k")
6  except KeyError:
7      pass
8  raise RuntimeError("boom")
>> *)
Definition boom_module (line : Z) : frame :=
  Frame 5 (mkCode "/tmp/boom.py" "<module>" false) line
    (module_globals "/tmp/boom.py" ++ [("f", Obj "<function f at 0x7f3a5c0>")])%list
    (Some bdb_run_frame).
Definition boom_f (line : Z) : frame :=
  Frame 6 (mkCode "/tmp/boom.py" "f" false) line [] (Some (boom_module 3)).

Definition KeyError_k : exc_info :=
  mkExcInfo (mkExc (OtherException "KeyError") "'k'") true.
Definition RuntimeError_boom : BaseException :=
  mkExc (OtherException "RuntimeError") "boom".

Definition boom_target : target :=
  mkTarget
    [ point (boom_module 0) ev_call;
      point (boom_module 1) ev_line;
      point (boom_module 3) ev_line;
      point (boom_f 1) ev_call;
      point (boom_f 2) ev_line;
      point (boom_f 2) ev_return;
      point (boom_module 4) ev_line;
      point (boom_module 5) ev_line;
      point (boom_module 5) (ev_exception KeyError_k);
      point (boom_module 6) ev_line;
      point (boom_module 7) ev_line;
      point (boom_module 8) ev_line;
      point (boom_module 8) (ev_exception (mkExcInfo RuntimeError_boom true));
      point (boom_module 8) ev_return ]
    (Some RuntimeError_boom).



(** [guard.py]:
<<
1  try:
2      work = 1
3  except Exception:
4      pass
5  raise RuntimeError("later")
>>
    An exception derived from [Exception] that the trace callback raises
    at line 2 is caught by the handler of line 3; the script then ends
    with the [RuntimeError] of line 5. *)
Definition guard_module (line : Z) : frame :=
  Frame 5 (mkCode "/tmp/guard.py" "<module>" false) line
    (module_globals "/tmp/guard.py") (Some bdb_run_frame).
Definition RuntimeError_later : BaseException :=
  mkExc (OtherException "RuntimeError") "later".

Definition guard_target : target :=
  mkTarget
    [ point (guard_module 0) ev_call;
      point (guard_module 1) ev_line;
      mkPoint (guard_module 2) ev_line
        (fun e => if issubclass_Exception (exc_type e)
                  then Some RuntimeError_later else Some e);
      point (guard_module 5) ev_line;
      point (guard_module 5) (ev_exception (mkExcInfo RuntimeError_later true));
      point (guard_module 5) ev_return ]
    (Some RuntimeError_later).

(** A frame with a local whose [__repr__] raises [ValueError], one whose
    text is 200 characters long, and a reserved name. *)
Definition sample_frame : frame :=
  Frame 6 (mkCode "/home/u/proj/app.py" "handler" false) 12
    [ ("__class__", BrokenRepr (mkExc SystemExit "0"));
      ("n", Obj "42");
      ("conn", BrokenRepr (mkExc (OtherException "ValueError") "closed"));
      ("text", Obj (String.concat "" (repeat "ab" 100))) ]
    (Some bdb_run_frame).


(* ===================================================================== *)
(** * The observer: views, display and key actions *)
(* ===================================================================== *)

(** The characters outside ASCII that the views print, as their UTF-8
    bytes: U+2192 (rightwards arrow), U+2502 (vertical bar of the box
    drawings) and U+25CF (black circle). *)
Definition arrow : string := String "226" (String "134" (String "146" EmptyString)).

(** [str(n)] for an [int]. *)
Definition str_int (n : Z) : string := NilZero.string_of_int (Z.to_int n).





(** ["\n".join(lines)] *)
Definition join_lines (lines : list string) : string :=
  String.concat (String "010" EmptyString) lines.


(** What a [Static] widget shows: the argument of its last [update], a
    markup text or a [rich.syntax.Syntax] object. *)
Inductive renderable : Type :=
| Markup (text : string)
| Syntax (code lexer theme : string) (line_numbers : bool).

(** The attributes of the [CodeView] widget. *)
Record CodeView : Type := mkCodeView {
  current_file : option string;
  current_line : Z;
  code_shown : renderable
}.





(** [enumerate(l)] *)
Definition enumerate {A} (l : list A) : list (nat * A) :=
  combine (seq 0 (length l)) l.

(** [StackView.update_stack(stack)]:
<<
def update_stack(self, stack: list):
    lines = []
    for i, frame in enumerate(stack):
        marker = "-> " if i == 0 else "  "           (the arrow is U+2192)
        lines.append(
            f"{marker}[yellow]{frame['function']}[/yellow] "
            f"({frame['filename']}:{frame['lineno']})"
        )
    self.update('\n'.join(lines))
>> *)
Definition stack_line (item : nat * Entry.t) : string :=
  let (i, fr) := item in
  (if Nat.eqb i 0 then arrow ++ " " else "  ")
  ++ "[yellow]" ++ Entry.function fr ++ "[/yellow] "
  ++ "(" ++ Entry.filename fr ++ ":" ++ str_int (Entry.lineno fr) ++ ")".

Definition update_stack (stack_ : list Entry.t) : renderable :=
  Markup (join_lines (map stack_line (enumerate stack_))).



(** The widgets of [DebuggerApp] ([#code-view], [#variables], [#stack],
    [#status]) and whether [exit()] was called. *)
Record DebuggerApp : Type := mkApp {
  code_view : CodeView;
  variables : renderable;
  stack_view : renderable;
  status_bar : renderable;
  exited : bool
}.




(** [queue.Queue.put] on [cmd_queue], by the observer. *)
Definition cmd_queue_put (cmd : string) (s : State) : State :=
  with_cmd_queue (cmd_queue s ++ [cmd]) s.

(** The key actions of [DebuggerApp]: [action_step], [action_next],
    [action_continue] put ['step'], ['next'], ['continue'];
    [action_quit_debugger] puts ['quit'] and calls [self.exit()]. *)
Definition action_step (s : State) : State := cmd_queue_put "step" s.
Definition action_next (s : State) : State := cmd_queue_put "next" s.
Definition action_continue (s : State) : State := cmd_queue_put "continue" s.
Definition action_quit_debugger (s : State) (app : DebuggerApp)
    : State * DebuggerApp :=
  (cmd_queue_put "quit" s,
   mkApp (code_view app) (variables app) (stack_view app) (status_bar app) true).


(* ===================================================================== *)
(** * The snapshot builder *)
(* ===================================================================== *)

Local Open Scope list_scope.




#[local] Arguments slice_to : simpl never.
#[local] Arguments startswith : simpl never.







(** One turn of the loop of [_safe_repr_dict] on a name that is kept. *)
Lemma safe_repr_turn (v : object) (result : dict string) (k : string) :
  try_except_Exception
    (r <- repr v ;; ret (dict_setitem result k (slice_to 100 r)))
    (fun _ => ret (dict_setitem result k error_repr))
  = match v with
    | BrokenRepr e =>
        if issubclass_Exception (exc_type e)
        then inr (dict_setitem result k error_repr) else inl e
    | Obj _ => inr (dict_setitem result k (display v))
    end.
Proof. destruct v as [s|e]; reflexivity. Qed.

Lemma safe_repr_loop_cons (k : string) (v : object)
    (rest : list (string * object)) (result : dict string) :
  _safe_repr_loop ((k, v) :: rest) result =
  if dunder k then _safe_repr_loop rest result
  else match v with
       | BrokenRepr e =>
           if issubclass_Exception (exc_type e)
           then _safe_repr_loop rest (dict_setitem result k (display v))
           else inl e
       | Obj _ => _safe_repr_loop rest (dict_setitem result k (display v))
       end.
Proof.
  unfold dunder. cbn [_safe_repr_loop]. destruct (startswith k "__"); [reflexivity|].
  rewrite safe_repr_turn. destruct v as [s|e]; [reflexivity|].
  destruct (issubclass_Exception (exc_type e)); reflexivity.
Qed.


(** The loop raises only what a [__repr__] raised outside [Exception]. *)
Lemma safe_repr_loop_raises (items : list (string * object)) :
  forall (acc : dict string) (e : BaseException),
    _safe_repr_loop items acc = inl e ->
    issubclass_Exception (exc_type e) = false /\
    exists k, In (k, BrokenRepr e) items /\ dunder k = false.
Proof.
  induction items as [|[k v] items IH]; intros acc e Hrun.
  - discriminate.
  - rewrite safe_repr_loop_cons in Hrun.
    destruct (dunder k) eqn:Hd.
    + apply IH in Hrun as (He & k' & Hin & Hk'). split; [assumption|].
      exists k'. split; [now right|assumption].
    + destruct v as [s|e0].
      * apply IH in Hrun as (He & k' & Hin & Hk'). split; [assumption|].
        exists k'. split; [now right|assumption].
      * destruct (issubclass_Exception (exc_type e0)) eqn:Hc.
        -- apply IH in Hrun as (He & k' & Hin & Hk'). split; [assumption|].
           exists k'. split; [now right|assumption].
        -- inversion Hrun; subst. split; [assumption|].
           exists k. split; [now left|assumption].
Qed.


Lemma build_state_eq (f : frame) (exc : option exc_info) :
  build_state f exc =
  match _safe_repr_dict (f_locals f) with
  | inl e => inl e
  | inr locs =>
      inr (mkSnapshot (co_filename (f_code f)) (f_lineno f) (co_name (f_code f))
             locs (_get_stack_info f)
             (match exc with
              | Some ei => Some (str (ei_value ei))
              | None => None
              end))
  end.
Proof. reflexivity. Qed.

Lemma update_ui_eq (f : frame) (exc : option exc_info) (s : State) :
  _update_ui f exc s =
  match build_state f exc with
  | inl e => Raised e s
  | inr snap =>
      Returned tt (with_history (history s ++ [Put snap])
                     (with_ui_queue (ui_queue s ++ [snap]) s))
  end.
Proof.
  unfold _update_ui. destruct (build_state f exc); reflexivity.
Qed.

(** The chain of frames, by induction on its length. *)
Lemma frame_chain_ind (P : frame -> Prop) :
  (forall i c l d, P (Frame i c l d None)) ->
  (forall i c l d b, P b -> P (Frame i c l d (Some b))) ->
  forall f, P f.
Proof.
  intros Hroot Hstep. fix IH 1. intros [i c l d [b|]].
  - apply Hstep, IH.
  - apply Hroot.
Qed.

Lemma stack_walk_eq (f : frame) :
  stack_walk f =
  stack_entry f :: match f_back f with
                   | Some b => stack_walk b
                   | None => []
                   end.
Proof. destruct f as [i c l d [b|]]; reflexivity. Qed.

Lemma depth_eq (f : frame) :
  depth f = S (match f_back f with Some b => depth b | None => 0 end).
Proof. destruct f as [i c l d [b|]]; reflexivity. Qed.

Lemma stack_walk_length (f : frame) : length (stack_walk f) = depth f.
Proof.
  induction f as [i c l d|i c l d b IH] using frame_chain_ind.
  - reflexivity.
  - rewrite stack_walk_eq, depth_eq. simpl. now rewrite IH.
Qed.










(* ===================================================================== *)
(** * The pause protocol *)
(* ===================================================================== *)

Tactic Notation "py_unfold" :=
  cbn [bind ret Monad_Py get put MonadState_Py raise catch MonadExc_Py
       update lift].
Tactic Notation "py_unfold" "in" hyp(H) :=
  cbn [bind ret Monad_Py get put MonadState_Py raise catch MonadExc_Py
       update lift] in H.

Lemma traffic_refl (s : State) : traffic s s [].
Proof. unfold traffic; simpl; now rewrite !app_nil_r. Qed.

Lemma puts_app (a b : list io_event) : puts (a ++ b) = puts a ++ puts b.
Proof.
  induction a as [|[x|c] a IH]; simpl; [reflexivity| |assumption].
  now rewrite IH.
Qed.

Lemma gets_app (a b : list io_event) : gets (a ++ b) = gets a ++ gets b.
Proof.
  induction a as [|[x|c] a IH]; simpl; [reflexivity|assumption|].
  now rewrite IH.
Qed.

Lemma traffic_trans (s s1 s2 : State) (a b : list io_event) :
  traffic s s1 a -> traffic s1 s2 b -> traffic s s2 (a ++ b).
Proof.
  intros (Ha1 & Ha2 & Ha3) (Hb1 & Hb2 & Hb3). unfold traffic.
  rewrite Hb1, Ha1, Hb2, Ha2, Ha3, Hb3, puts_app, gets_app, !app_assoc.
  auto.
Qed.

Lemma traffic_silent (s s1 s2 : State) (io : list io_event) :
  traffic s s1 [] -> traffic s1 s2 io -> traffic s s2 io.
Proof. intros H1 H2. exact (traffic_trans H1 H2). Qed.

Lemma traffic_then_silent (s s1 s2 : State) (io : list io_event) :
  traffic s s1 io -> traffic s1 s2 [] -> traffic s s2 io.
Proof.
  intros H1 H2. pose proof (traffic_trans H1 H2) as H.
  now rewrite app_nil_r in H.
Qed.

Lemma paired_app (a b : list io_event) : paired a -> paired b -> paired (a ++ b).
Proof. induction 1; simpl; [trivial|]. intros Hb. constructor. auto. Qed.

Lemma paired_balanced (io : list io_event) :
  paired io -> length (puts io) = length (gets io).
Proof. induction 1; simpl; auto. Qed.

Lemma quiet_traffic (s s' : State) : quiet s s' -> traffic s s' [].
Proof.
  intros (H1 & H2 & H3). unfold traffic. simpl.
  now rewrite H1, H2, H3, !app_nil_r.
Qed.

Lemma quiet_add_f_trace (f : frame) (s : State) : quiet s (add_f_trace f s).
Proof.
  unfold add_f_trace, quiet.
  destruct (existsb (Nat.eqb (f_id f)) (f_trace s)); simpl; auto.
Qed.

Lemma set_step_quiet (s : State) :
  exists s', set_step s = Returned tt s' /\ quiet s s'.
Proof.
  unfold set_step, _set_stopinfo. py_unfold.
  destruct (frame_returning s) as [fr|]; [destruct (f_back fr) as [cf|]|]; py_unfold;
    eexists; (split; [reflexivity|]).
  - destruct (quiet_add_f_trace cf s) as (H1 & H2 & H3).
    unfold quiet; simpl. auto.
  - unfold quiet; simpl; auto.
  - unfold quiet; simpl; auto.
Qed.

Lemma set_next_eq (f : frame) (s : State) :
  set_next f s =
  Returned tt (with_stoplineno 0 (with_quitting false
                 (with_returnframe None (with_stopframe (Some f) s)))).
Proof. reflexivity. Qed.

Lemma set_continue_eq (f : frame) (s : State) :
  set_continue f s =
  Returned tt
    (del_f_trace (frames_down_to (botframe s) f)
       (with_sys_trace false
          (with_stoplineno (-1) (with_quitting false
             (with_returnframe None (with_stopframe (botframe s) s)))))).
Proof. reflexivity. Qed.

Lemma set_quit_eq (s : State) :
  set_quit s =
  Returned tt
    (with_sys_trace false (with_quitting true
       (with_returnframe None (with_stopframe (botframe s) s)))).
Proof. reflexivity. Qed.

(** Taking one command: the call blocks on an empty queue; otherwise it
    takes the oldest command, acts on it and returns. *)
Lemma wait_for_command_cases (f : frame) (s : State) :
  match cmd_queue s with
  | [] => _wait_for_command f s = Blocked s
  | cmd :: rest =>
      exists s', _wait_for_command f s = Returned tt s' /\
                 traffic s s' [Get cmd] /\ cmd_queue s' = rest /\
                 ui_queue s' = ui_queue s
  end.
Proof.
  unfold _wait_for_command, cmd_queue_get. py_unfold.
  destruct (cmd_queue s) as [|cmd rest] eqn:Hq; [reflexivity|].
  set (s1 := with_history (history s ++ [Get cmd]) (with_cmd_queue rest s)).
  assert (H1 : traffic s s1 [Get cmd]).
  { unfold traffic, s1; simpl. rewrite Hq, app_nil_r. auto. }
  assert (Hfin : forall s', quiet s1 s' ->
            traffic s s' [Get cmd] /\ cmd_queue s' = rest /\ ui_queue s' = ui_queue s).
  { intros s' Hq'. split; [|split].
    - eapply traffic_then_silent; [exact H1|now apply quiet_traffic].
    - destruct Hq' as (_ & -> & _). reflexivity.
    - destruct Hq' as (-> & _ & _). reflexivity. }
  destruct (String.eqb cmd "step").
  { destruct (set_step_quiet s1) as (s' & -> & Hs'). exists s'. split; auto. }
  destruct (String.eqb cmd "next").
  { rewrite set_next_eq. eexists; split; [reflexivity|].
    apply Hfin. unfold quiet; simpl; auto. }
  destruct (String.eqb cmd "continue").
  { rewrite set_continue_eq. eexists; split; [reflexivity|].
    apply Hfin. unfold quiet; simpl; auto. }
  destruct (String.eqb cmd "quit").
  { rewrite set_quit_eq. eexists; split; [reflexivity|].
    apply Hfin. unfold quiet; simpl; auto. }
  eexists; split; [reflexivity|]. apply Hfin. unfold quiet; auto.
Qed.

(** C10: whatever value arrives on the command queue, [_wait_for_command]
    takes exactly that one item and returns; a value other than ['step'],
    ['next'], ['continue'], ['quit'] changes nothing else, so the stepping
    state in force stays as it was. *)
Theorem wait_for_command_consumes_one :
  forall (f : frame) (s : State) (cmd : string) (rest : list string),
    cmd_queue s = cmd :: rest ->
    exists s',
      _wait_for_command f s = Returned tt s' /\
      cmd_queue s' = rest /\
      history s' = history s ++ [Get cmd] /\
      ui_queue s' = ui_queue s /\
      (recognized cmd = false ->
         s' = with_history (history s ++ [Get cmd]) (with_cmd_queue rest s) /\
         same_directive s s').
Proof.
  intros f s cmd rest Hq.
  pose proof (wait_for_command_cases f s) as H. rewrite Hq in H.
  destruct H as (s' & Hrun & (Hh & _ & _) & Hc & Hu).
  exists s'. split; [assumption|]. split; [assumption|].
  split; [assumption|]. split; [assumption|].
  intros Hrec. unfold recognized in Hrec.
  apply orb_false_iff in Hrec as [Hrec Hquit].
  apply orb_false_iff in Hrec as [Hrec Hcont].
  apply orb_false_iff in Hrec as [Hstep Hnext].
  unfold _wait_for_command, cmd_queue_get in Hrun. py_unfold in Hrun.
  rewrite Hq, Hstep, Hnext, Hcont, Hquit in Hrun. inversion Hrun.
  split; [reflexivity|].
  unfold same_directive; simpl; repeat split; reflexivity.
Qed.

(** An unknown command at a pause in a module frame. *)
Lemma wait_for_command_consumes_one_witness :
  exists s',
    _wait_for_command (Frame 1 (mkCode "t.py" "<module>" false) 1 [] None)
      (initial_state ["bogus"; "step"]) = Returned tt s' /\
    cmd_queue s' = ["step"] /\
    history s' = [Get "bogus"] /\
    stopframe s' = None /\ quitting s' = false.
Proof.
  destruct (@wait_for_command_consumes_one
              (Frame 1 (mkCode "t.py" "<module>" false) 1 [] None)
              (initial_state ["bogus"; "step"]) "bogus" ["step"] eq_refl)
    as (s' & Hrun & Hc & Hh & Hu & Hrest).
  exists s'. destruct (Hrest eq_refl) as (Heq & Hd).
  repeat split; try assumption.
  - rewrite Heq. reflexivity.
  - rewrite Heq. reflexivity.
Defined.

(** A pause at a line. *)
Lemma user_line_protocol (f : frame) (s : State) :
  pause_protocol s (user_line f s).
Proof.
  unfold user_line. py_unfold.
  set (s1 := with_current_frame (Some f) s).
  rewrite update_ui_eq.
  destruct (build_state f None) as [e|snap] eqn:Hb.
  - simpl. split; [|apply quiet_traffic; unfold quiet, s1; simpl; auto].
    rewrite build_state_eq in Hb. unfold _safe_repr_dict in Hb.
    destruct (_safe_repr_loop (f_locals f) []) as [e'|r] eqn:Hrun; [|discriminate].
    inversion Hb; subst. now apply safe_repr_loop_raises in Hrun.
  - set (s2 := with_history _ _).
    assert (H2 : traffic s s2 [Put snap]).
    { unfold traffic, s2, s1; simpl. auto. }
    pose proof (wait_for_command_cases f s2) as Hw.
    destruct (cmd_queue s2) as [|cmd rest] eqn:Hq.
    + rewrite Hw. simpl. split; [exact Hq|]. exists snap. exact H2.
    + destruct Hw as (s' & -> & Ht & _). simpl. exists snap, cmd.
      exact (traffic_trans H2 Ht).
Qed.

(** A pause at an exception. *)
Lemma user_exception_protocol (f : frame) (ei : exc_info) (s : State) :
  pause_protocol s (user_exception f ei s).
Proof.
  unfold user_exception. py_unfold.
  set (s1 := with_current_frame (Some f) s).
  rewrite update_ui_eq.
  destruct (build_state f (Some ei)) as [e|snap] eqn:Hb.
  - simpl. split; [|apply quiet_traffic; unfold quiet, s1; simpl; auto].
    rewrite build_state_eq in Hb. unfold _safe_repr_dict in Hb.
    destruct (_safe_repr_loop (f_locals f) []) as [e'|r] eqn:Hrun; [|discriminate].
    inversion Hb; subst. now apply safe_repr_loop_raises in Hrun.
  - set (s2 := with_history _ _).
    assert (H2 : traffic s s2 [Put snap]).
    { unfold traffic, s2, s1; simpl. auto. }
    pose proof (wait_for_command_cases f s2) as Hw.
    destruct (cmd_queue s2) as [|cmd rest] eqn:Hq.
    + rewrite Hw. simpl. split; [exact Hq|]. exists snap. exact H2.
    + destruct Hw as (s' & -> & Ht & _). simpl. exists snap, cmd.
      exact (traffic_trans H2 Ht).
Qed.

(** ** Composition of calls *)

Lemma quiet_refl (s : State) : quiet s s.
Proof. unfold quiet; auto. Qed.

Lemma quiet_trans (s s1 s2 : State) : quiet s s1 -> quiet s1 s2 -> quiet s s2.
Proof.
  intros (H1 & H2 & H3) (H1' & H2' & H3'). unfold quiet.
  rewrite H1', H2', H3'. auto.
Qed.

Lemma quiet_bind {A B} (c : Py A) (k : A -> Py B) (s : State) :
  quiet_outcome s (c s) ->
  (forall a s', quiet_outcome s' (k a s')) ->
  quiet_outcome s (bind c k s).
Proof.
  intros Hc Hk. py_unfold. destruct (c s) as [a s'|e s'|s']; simpl in *; auto.
  specialize (Hk a s'). destruct (k a s'); simpl in *; eauto using quiet_trans.
Qed.

Lemma quiet_update (g : State -> State) (s : State) :
  quiet s (g s) -> quiet_outcome s (update g s).
Proof. auto. Qed.

Lemma quiet_set_stopinfo (sf rf : option frame) (ln : Z) (s : State) :
  quiet_outcome s (_set_stopinfo sf rf ln s).
Proof. unfold _set_stopinfo. apply quiet_update. unfold quiet; auto. Qed.

Lemma quiet_raise_if_quitting (s : State) : quiet_outcome s (raise_if_quitting s).
Proof.
  unfold raise_if_quitting. py_unfold. destruct (quitting s); simpl; apply quiet_refl.
Qed.

Lemma quiet_step {A} (s : State) (o : outcome A) :
  quiet_outcome s o -> step_protocol s o.
Proof.
  destruct o; simpl; intros H; try contradiction; left; now apply quiet_traffic.
Qed.

Lemma quiet_then_step {A B} (c : Py A) (k : A -> Py B) (s : State) :
  quiet_outcome s (c s) ->
  (forall a s', step_protocol s' (k a s')) ->
  step_protocol s (bind c k s).
Proof.
  intros Hc Hk. py_unfold. destruct (c s) as [a s'|e s'|s']; simpl in *.
  - specialize (Hk a s'). apply quiet_traffic in Hc.
    destruct (k a s') as [b s2|e s2|s2]; simpl in *.
    + destruct Hk as [Hk|(snap & cmd & Hk)]; [left|right; exists snap, cmd];
        eapply traffic_silent; eauto.
    + destruct Hk as [Hk|(snap & cmd & Hk)]; [left|right; exists snap, cmd];
        eapply traffic_silent; eauto.
    + destruct Hk as (snap & Hk). exists snap. eapply traffic_silent; eauto.
  - left. now apply quiet_traffic.
  - contradiction.
Qed.

Lemma step_then_quiet {A B} (c : Py A) (k : A -> Py B) (s : State) :
  step_protocol s (c s) ->
  (forall a s', quiet_outcome s' (k a s')) ->
  step_protocol s (bind c k s).
Proof.
  intros Hc Hk. py_unfold. destruct (c s) as [a s'|e s'|s']; simpl in *; auto.
  specialize (Hk a s').
  destruct (k a s') as [b s2|e s2|s2]; simpl in *; try contradiction;
    apply quiet_traffic in Hk;
    (destruct Hc as [Hc|(snap & cmd & Hc)]; [left|right; exists snap, cmd];
     eapply traffic_then_silent; eauto).
Qed.

Lemma step_catch {A} (c : Py A) (h : BaseException -> Py A) (s : State) :
  step_protocol s (c s) ->
  (forall e s', quiet_outcome s' (h e s')) ->
  step_protocol s (catch c h s).
Proof.
  intros Hc Hh. py_unfold. destruct (c s) as [a s'|e s'|s']; simpl in *; auto.
  specialize (Hh e s').
  destruct (h e s') as [b s2|e2 s2|s2]; simpl in *; try contradiction;
    apply quiet_traffic in Hh;
    (destruct Hc as [Hc|(snap & cmd & Hc)]; [left|right; exists snap, cmd];
     eapply traffic_then_silent; eauto).
Qed.

Lemma pause_step (c : Py unit) (s : State) :
  pause_protocol s (c s) -> step_protocol s ((c ;; raise_if_quitting) s).
Proof.
  intros Hc. py_unfold. destruct (c s) as [[] s'|e s'|s']; simpl in *.
  - pose proof (quiet_raise_if_quitting s') as Hq.
    destruct Hc as (snap & cmd & Hc).
    destruct (raise_if_quitting s'); simpl in *; try contradiction;
      right; exists snap, cmd; eapply traffic_then_silent; eauto using quiet_traffic.
  - left. tauto.
  - tauto.
Qed.

(** ** The dispatchers *)

Lemma dispatch_line_protocol (f : frame) (s : State) :
  step_protocol s (dispatch_line f s).
Proof.
  unfold dispatch_line. apply quiet_then_step; [apply quiet_refl|].
  intros s0 s1. apply step_then_quiet; [|intros; apply quiet_refl].
  destruct (stop_here s0 f || break_here s0 f).
  - apply pause_step, user_line_protocol.
  - apply quiet_step, quiet_refl.
Qed.

Lemma dispatch_call_quiet (f : frame) (s : State) :
  quiet_outcome s (dispatch_call f s).
Proof.
  unfold dispatch_call. apply quiet_bind; [apply quiet_refl|].
  intros s0 s1. destruct (botframe s0).
  - destruct (negb _); [apply quiet_refl|].
    destruct (_ && _); [apply quiet_refl|].
    apply quiet_bind; [apply quiet_refl|]. intros _ s2.
    apply quiet_bind; [apply quiet_raise_if_quitting|]. intros _ s3.
    apply quiet_refl.
  - apply quiet_bind; [|intros; apply quiet_refl].
    apply quiet_update. unfold quiet; auto.
Qed.

Lemma dispatch_return_quiet (f : frame) (s : State) :
  quiet_outcome s (dispatch_return f s).
Proof.
  unfold dispatch_return. apply quiet_bind; [apply quiet_refl|].
  intros s0 s1. destruct (_ || _); [|apply quiet_refl].
  destruct (_ && _); [apply quiet_refl|].
  apply quiet_bind; [apply quiet_update; unfold quiet; auto|]. intros _ s2.
  apply quiet_bind; [apply quiet_refl|]. intros _ s3.
  apply quiet_bind; [apply quiet_update; unfold quiet; auto|]. intros _ s4.
  apply quiet_bind; [apply quiet_raise_if_quitting|]. intros _ s5.
  apply quiet_bind; [apply quiet_refl|]. intros s6 s7.
  apply quiet_bind; [|intros; apply quiet_refl].
  destruct (_ && _); [apply quiet_set_stopinfo|apply quiet_refl].
Qed.

Lemma dispatch_exception_protocol (f : frame) (arg : exc_info) (s : State) :
  step_protocol s (dispatch_exception f arg s).
Proof.
  unfold dispatch_exception. apply quiet_then_step; [apply quiet_refl|].
  intros s0 s1. apply step_then_quiet; [|intros; apply quiet_refl].
  destruct (stop_here s0 f).
  - destruct (negb _).
    + apply pause_step, user_exception_protocol.
    + apply quiet_step, quiet_refl.
  - destruct (stopframe s0) as [sf|].
    + destruct (_ && _).
      * apply pause_step, user_exception_protocol.
      * apply quiet_step, quiet_refl.
    + apply quiet_step, quiet_refl.
Qed.

Lemma trace_dispatch_protocol (f : frame) (ev : event) (s : State) :
  step_protocol s (trace_dispatch f ev s).
Proof.
  unfold trace_dispatch. apply quiet_then_step; [apply quiet_refl|].
  intros s0 s1. destruct (quitting s0); [apply quiet_step, quiet_refl|].
  destruct ev.
  - apply dispatch_line_protocol.
  - apply quiet_step, dispatch_call_quiet.
  - apply quiet_step, dispatch_return_quiet.
  - apply dispatch_exception_protocol.
Qed.

Lemma quiet_del_f_trace (ids : list nat) (s : State) : quiet s (del_f_trace ids s).
Proof. unfold quiet; auto. Qed.

Lemma deliver_protocol (tp : trace_point) (s : State) :
  step_protocol s (deliver tp s).
Proof.
  unfold deliver. apply quiet_then_step; [apply quiet_refl|].
  intros s0 s1. destruct (negb (sys_trace s0)); [apply quiet_step, quiet_refl|].
  match goal with |- context [if ?b then _ else _] => destruct b end;
    [|apply quiet_step, quiet_refl].
  apply step_catch.
  - apply step_then_quiet; [apply trace_dispatch_protocol|].
    intros [|] s2; [apply quiet_update, quiet_add_f_trace|apply quiet_refl].
  - intros e s2.
    apply quiet_bind; [apply quiet_update; unfold quiet; auto|]. intros _ s3.
    apply quiet_bind; [apply quiet_update, quiet_del_f_trace|]. intros _ s4.
    apply quiet_refl.
Qed.

(** ** Whole runs *)

Lemma step_then_run (s s1 : State) (o : outcome unit) :
  (traffic s s1 [] \/ exists snap cmd, traffic s s1 [Put snap; Get cmd]) ->
  run_protocol s1 o -> run_protocol s o.
Proof.
  intros Hstep Ho.
  assert (Hpre : exists pre, paired pre /\ traffic s s1 pre).
  { destruct Hstep as [H|(snap & cmd & H)].
    - exists []. split; [constructor|assumption].
    - exists [Put snap; Get cmd]. split; [repeat constructor|assumption]. }
  destruct Hpre as (pre & Hp & Ht).
  destruct o as [[] s2|e s2|s2]; simpl in *.
  - destruct Ho as (io & Hio & Ht' & _). exists (pre ++ io).
    split; [now apply paired_app|]. split; [exact (traffic_trans Ht Ht')|].
    apply paired_balanced. now apply paired_app.
  - destruct Ho as (io & Hio & Ht' & _). exists (pre ++ io).
    split; [now apply paired_app|]. split; [exact (traffic_trans Ht Ht')|].
    apply paired_balanced. now apply paired_app.
  - destruct Ho as (io & snap & Hio & Ht'). exists (pre ++ io), snap.
    split; [now apply paired_app|]. rewrite <- app_assoc.
    exact (traffic_trans Ht Ht').
Qed.

Lemma step_is_run (s : State) (o : outcome unit) :
  step_protocol s o -> run_protocol s o.
Proof.
  destruct o as [[] s1|e s1|s1]; simpl; intros H.
  - destruct H as [H|(snap & cmd & H)].
    + exists []. repeat split; try constructor; apply H.
    + exists [Put snap; Get cmd]. repeat split; try (repeat constructor); apply H.
  - destruct H as [H|(snap & cmd & H)].
    + exists []. repeat split; try constructor; apply H.
    + exists [Put snap; Get cmd]. repeat split; try (repeat constructor); apply H.
  - destruct H as (snap & H). exists [], snap. split; [constructor|exact H].
Qed.

Lemma exec_points_protocol (points : list trace_point) (result : option BaseException) :
  forall s, run_protocol s (exec_points points result s).
Proof.
  induction points as [|tp rest IH]; intros s.
  - destruct result as [e|]; simpl; exists []; repeat split;
      try constructor; unfold traffic; simpl; now rewrite ?app_nil_r.
  - cbn [exec_points]. pose proof (deliver_protocol tp s) as Hd.
    destruct (deliver tp s) as [[] s1|e s1|s1].
    + eapply step_then_run; [exact Hd|apply IH].
    + destruct (tp_escape tp e) as [e'|]; now apply step_is_run.
    + now apply step_is_run.
Qed.

Lemma run_eq (tg : target) (s : State) :
  run tg s =
  match exec tg (started s) with
  | Returned _ s' => Returned tt (finished s')
  | Raised e s' =>
      if issubclass_BdbQuit (exc_type e) then Returned tt (finished s')
      else Raised e (finished s')
  | Blocked s' => Blocked s'
  end.
Proof. reflexivity. Qed.

Lemma quiet_started (s : State) : quiet s (started s).
Proof. unfold quiet; auto. Qed.

Lemma quiet_finished (s : State) : quiet s (finished s).
Proof. unfold quiet; auto. Qed.

Lemma run_protocol_quiet_after (s s1 s2 : State) :
  run_protocol s (Returned tt s1) -> quiet s1 s2 ->
  run_protocol s (Returned tt s2) /\ forall e, run_protocol s (Raised e s2).
Proof.
  simpl. intros (io & Hp & Ht & Hb) Hq.
  split; [|intros _]; exists io; repeat split; auto;
    try apply (traffic_then_silent Ht (quiet_traffic Hq)).
Qed.

Lemma run_keeps_protocol (tg : target) (s : State) : run_protocol s (run tg s).
Proof.
  rewrite run_eq. unfold exec.
  pose proof (exec_points_protocol (tg_points tg) (tg_result tg) (started s)) as He.
  assert (H0 : traffic s (started s) []) by apply quiet_traffic, quiet_started.
  eapply step_then_run; [left; exact H0|].
  destruct (exec_points _ _ _) as [[] s1|e s1|s1]; [| |exact He].
  - destruct (@run_protocol_quiet_after (started s) s1 (finished s1) He
                (quiet_finished s1)) as [H _]. exact H.
  - destruct (@run_protocol_quiet_after (started s) s1 (finished s1) He
                (quiet_finished s1)) as [H1 H2].
    destruct (issubclass_BdbQuit (exc_type e)); [exact H1|apply H2].
Qed.





(* ===================================================================== *)
(** * The process *)
(* ===================================================================== *)

(** C9: without a target path, or with a path that does not exist, [main]
    prints a message and exits with status 1 without starting the
    debugger; otherwise it prints nothing and runs the debugger on the
    path. *)
Theorem main_exits_nonzero_or_runs_debugger :
  forall (argv : list string) (path_exists : string -> bool),
    (length argv < 2 ->
       main argv path_exists = (usage, sys_exit 1) /\ usage <> []) /\
    (2 <= length argv -> path_exists (nth 1 argv "") = false ->
       main argv path_exists =
         ([("Error: " ++ nth 1 argv "" ++ " not found")%string], sys_exit 1)) /\
    (2 <= length argv -> path_exists (nth 1 argv "") = true ->
       main argv path_exists = ([], run_debugger (nth 1 argv ""))) /\
    (forall out status, main argv path_exists = (out, sys_exit status) ->
       status = 1%Z /\ status <> 0%Z /\ out <> []) /\
    (forall out p, main argv path_exists = (out, run_debugger p) ->
       2 <= length argv /\ p = nth 1 argv "" /\ path_exists p = true).
Proof.
  intros argv path_exists. unfold main.
  destruct (Nat.ltb_spec (length argv) 2) as [Hlt|Hge].
  - split; [intros _; split; [reflexivity|discriminate]|].
    split; [intros; lia|]. split; [intros; lia|]. split.
    + intros out status Heq. inversion Heq; subst.
      split; [reflexivity|]. split; [lia|discriminate].
    + intros out p Heq. discriminate.
  - split; [intros; lia|].
    destruct (path_exists (nth 1 argv "")) eqn:Hex; simpl.
    + split; [intros; discriminate|]. split; [reflexivity|]. split.
      * intros out status Heq. discriminate.
      * intros out p Heq. inversion Heq; subst. auto.
    + split; [reflexivity|]. split; [intros; discriminate|]. split.
      * intros out status Heq. inversion Heq; subst.
        split; [reflexivity|]. split; [lia|discriminate].
      * intros out p Heq. discriminate.
Qed.

(* ===================================================================== *)
(** * Resume directives *)
(* ===================================================================== *)

Lemma deliver_all_cons (tp : trace_point) (rest : list trace_point) (s : State) :
  deliver_all (tp :: rest) s =
  match deliver tp s with
  | Returned _ s' => deliver_all rest s'
  | Raised e s' => Raised e s'
  | Blocked s' => Blocked s'
  end.
Proof. reflexivity. Qed.

Lemma exec_points_app (pre post : list trace_point) (result : option BaseException) :
  forall s s1,
    deliver_all pre s = Returned tt s1 ->
    exec_points (pre ++ post) result s = exec_points post result s1.
Proof.
  induction pre as [|tp pre IH]; intros s s1 Hpre.
  - inversion Hpre. reflexivity.
  - rewrite deliver_all_cons in Hpre. simpl.
    destruct (deliver tp s) as [[] s'|e s'|s']; try discriminate.
    now apply IH.
Qed.

Lemma deliver_untraced (tp : trace_point) (s : State) :
  sys_trace s = false -> deliver tp s = Returned tt s.
Proof. intros H. unfold deliver. py_unfold. now rewrite H. Qed.

Lemma deliver_all_untraced (points : list trace_point) (s : State) :
  sys_trace s = false -> deliver_all points s = Returned tt s.
Proof.
  intros H. induction points as [|tp rest IH]; [reflexivity|].
  rewrite deliver_all_cons, deliver_untraced; assumption.
Qed.

Lemma exec_points_untraced (points : list trace_point)
    (result : option BaseException) (s : State) :
  sys_trace s = false ->
  exec_points points result s =
  match result with
  | None => Returned tt s
  | Some e => Raised e s
  end.
Proof.
  intros H. rewrite <- (app_nil_r points).
  rewrite (@exec_points_app points [] result s s (@deliver_all_untraced points s H)).
  destruct result; reflexivity.
Qed.

(** The state in which a pause at [f] leaves when the command taken is
    [cmd]. *)
Lemma wait_for_command_next (f : frame) (s : State) (rest : list string) :
  cmd_queue s = "next"%string :: rest ->
  _wait_for_command f s =
  Returned tt
    (with_stoplineno 0 (with_quitting false (with_returnframe None
       (with_stopframe (Some f)
          (with_history (history s ++ [Get "next"%string]) (with_cmd_queue rest s)))))).
Proof.
  intros Hq. unfold _wait_for_command, cmd_queue_get. py_unfold. now rewrite Hq.
Qed.

Lemma wait_for_command_continue (f : frame) (s : State) (rest : list string) :
  cmd_queue s = "continue"%string :: rest ->
  exists s',
    _wait_for_command f s = Returned tt s' /\
    sys_trace s' = false /\ quitting s' = false /\
    ui_queue s' = ui_queue s /\ cmd_queue s' = rest /\
    history s' = history s ++ [Get "continue"%string].
Proof.
  intros Hq. unfold _wait_for_command, cmd_queue_get. py_unfold. rewrite Hq.
  cbn [String.eqb Ascii.eqb Bool.eqb]. rewrite set_continue_eq.
  eexists. split; [reflexivity|]. simpl. auto.
Qed.

Lemma wait_for_command_quit (f : frame) (s : State) (rest : list string) :
  cmd_queue s = "quit"%string :: rest ->
  exists s',
    _wait_for_command f s = Returned tt s' /\
    sys_trace s' = false /\ quitting s' = true /\
    ui_queue s' = ui_queue s /\ cmd_queue s' = rest /\
    history s' = history s ++ [Get "quit"%string].
Proof.
  intros Hq. unfold _wait_for_command, cmd_queue_get. py_unfold. rewrite Hq.
  cbn [String.eqb Ascii.eqb Bool.eqb]. rewrite set_quit_eq.
  eexists. split; [reflexivity|]. simpl. auto.
Qed.

(** ** [next] *)

Section StepOver.

Variable F : frame.

Hypothesis F_plain : co_generator (f_code F) = false.





End StepOver.

(** Under the same directive, the next line of [F] itself pauses. *)
Lemma stepping_over_pauses_in_frame (F : frame) (s : State) (tp : trace_point) :
  stepping_over F s ->
  sys_trace s = true ->
  has_f_trace s (tp_frame tp) = true ->
  f_id (tp_frame tp) = f_id F ->
  (0 <= f_lineno (tp_frame tp))%Z ->
  tp_event tp = ev_line ->
  pauses s tp = true.
Proof.
  intros (Hsf & Hln & _ & Hq) Ht Hf Hid Hline Hev.
  unfold pauses, stop_here. rewrite Ht, Hf, Hq, Hev, Hsf, Hln. simpl.
  rewrite Hid, Nat.eqb_refl. simpl. rewrite orb_false_r.
  now apply Z.leb_le.
Qed.

(** ** What a pause does, by command *)

Lemma user_line_pause (f : frame) : user_line f = pause f None.
Proof. reflexivity. Qed.

Lemma user_exception_pause (f : frame) (ei : exc_info) :
  user_exception f ei = pause f (Some ei).
Proof. reflexivity. Qed.

Lemma pause_continue (f : frame) (exc : option exc_info) (s : State)
    (snap : Snapshot) (rest : list string) :
  build_state f exc = inr snap ->
  cmd_queue s = "continue"%string :: rest ->
  exists s',
    pause f exc s = Returned tt s' /\
    sys_trace s' = false /\ quitting s' = false /\
    ui_queue s' = ui_queue s ++ [snap] /\ cmd_queue s' = rest /\
    history s' = history s ++ [Put snap; Get "continue"%string].
Proof.
  intros Hb Hq. unfold pause. py_unfold. rewrite update_ui_eq, Hb.
  set (s2 := with_history _ _).
  destruct (@wait_for_command_continue f s2 rest Hq)
    as (s' & -> & Ht & Hqt & Hu & Hc & Hh).
  exists s'. repeat split; auto.
  rewrite Hh. unfold s2; simpl. now rewrite <- app_assoc.
Qed.

Lemma pause_quit (f : frame) (exc : option exc_info) (s : State)
    (snap : Snapshot) (rest : list string) :
  build_state f exc = inr snap ->
  cmd_queue s = "quit"%string :: rest ->
  exists s',
    pause f exc s = Returned tt s' /\
    sys_trace s' = false /\ quitting s' = true /\
    ui_queue s' = ui_queue s ++ [snap] /\ cmd_queue s' = rest /\
    history s' = history s ++ [Put snap; Get "quit"%string].
Proof.
  intros Hb Hq. unfold pause. py_unfold. rewrite update_ui_eq, Hb.
  set (s2 := with_history _ _).
  destruct (@wait_for_command_quit f s2 rest Hq)
    as (s' & -> & Ht & Hqt & Hu & Hc & Hh).
  exists s'. repeat split; auto.
  rewrite Hh. unfold s2; simpl. now rewrite <- app_assoc.
Qed.

(** When [pauses s tp] holds, the dispatcher runs the pause and then the
    test of [quitting]. *)
Lemma trace_dispatch_pauses (s : State) (tp : trace_point) :
  pauses s tp = true ->
  trace_dispatch (tp_frame tp) (tp_event tp) s =
  ((pause (tp_frame tp) (exception_of (tp_event tp)) ;; raise_if_quitting) ;;
   ret true) s.
Proof.
  unfold pauses. intros H.
  apply andb_true_iff in H as [H Hev].
  apply andb_true_iff in H as [H Hq]. apply negb_true_iff in Hq.
  unfold trace_dispatch. py_unfold. rewrite Hq.
  destruct (tp_event tp) as [| | |arg]; try discriminate.
  - unfold dispatch_line. py_unfold. rewrite Hev. reflexivity.
  - unfold dispatch_exception. py_unfold.
    destruct (stop_here s (tp_frame tp)).
    + rewrite Hev. reflexivity.
    + destruct (stopframe s) as [sf|]; [|discriminate].
      rewrite Hev. reflexivity.
Qed.

Lemma deliver_pauses (s : State) (tp : trace_point) :
  pauses s tp = true ->
  deliver tp s =
  catch
    (r <- trace_dispatch (tp_frame tp) (tp_event tp) ;;
     if r then update (add_f_trace (tp_frame tp)) else ret tt)
    (fun e =>
       update (with_sys_trace false) ;;
       update (del_f_trace [f_id (tp_frame tp)]) ;;
       raise e) s.
Proof.
  unfold pauses. intros H.
  apply andb_true_iff in H as [H Hev].
  apply andb_true_iff in H as [H Hq].
  apply andb_true_iff in H as [Ht Hf].
  unfold deliver. py_unfold. rewrite Ht, Hf. simpl.
  destruct (tp_event tp); reflexivity.
Qed.

Lemma deliver_pause_continue (s : State) (tp : trace_point)
    (snap : Snapshot) (rest : list string) :
  pauses s tp = true ->
  build_state (tp_frame tp) (exception_of (tp_event tp)) = inr snap ->
  cmd_queue s = "continue"%string :: rest ->
  exists s',
    deliver tp s = Returned tt s' /\
    sys_trace s' = false /\
    ui_queue s' = ui_queue s ++ [snap] /\ cmd_queue s' = rest /\
    history s' = history s ++ [Put snap; Get "continue"%string].
Proof.
  intros Hp Hb Hq. rewrite (deliver_pauses s tp Hp). py_unfold.
  rewrite (trace_dispatch_pauses s tp Hp). py_unfold.
  destruct (pause_continue _ _ s Hb Hq) as (s' & -> & Ht & Hqt & Hu & Hc & Hh).
  unfold raise_if_quitting. py_unfold. rewrite Hqt. py_unfold.
  eexists. split; [reflexivity|].
  unfold add_f_trace. destruct (existsb _ _); simpl; auto.
Qed.

Lemma deliver_pause_quit (s : State) (tp : trace_point)
    (snap : Snapshot) (rest : list string) :
  pauses s tp = true ->
  build_state (tp_frame tp) (exception_of (tp_event tp)) = inr snap ->
  cmd_queue s = "quit"%string :: rest ->
  exists s',
    deliver tp s = Raised BdbQuit_raised s' /\
    sys_trace s' = false /\ quitting s' = true /\
    ui_queue s' = ui_queue s ++ [snap] /\ cmd_queue s' = rest /\
    history s' = history s ++ [Put snap; Get "quit"%string].
Proof.
  intros Hp Hb Hq. rewrite (deliver_pauses s tp Hp). py_unfold.
  rewrite (trace_dispatch_pauses s tp Hp). py_unfold.
  destruct (pause_quit _ _ s Hb Hq) as (s' & -> & Ht & Hqt & Hu & Hc & Hh).
  unfold raise_if_quitting. py_unfold. rewrite Hqt. py_unfold.
  eexists. split; [reflexivity|]. simpl. auto.
Qed.

(** A trace point that does not make the debugger pause leaves the
    queues alone. *)
Lemma deliver_no_pause (s : State) (tp : trace_point) :
  pauses s tp = false -> quiet_outcome s (deliver tp s).
Proof.
  unfold pauses, deliver. py_unfold. intros Hp.
  destruct (sys_trace s); [|apply quiet_refl]. simpl in *.
  assert (Hh : forall (c : Py bool),
             quiet_outcome s (c s) ->
             quiet_outcome s
               (catch
                  (r <- c ;; if r then update (add_f_trace (tp_frame tp)) else ret tt)
                  (fun e =>
                     update (with_sys_trace false) ;;
                     update (del_f_trace [f_id (tp_frame tp)]) ;;
                     raise e) s)).
  { intros c Hc. py_unfold. destruct (c s) as [[|] s1|e s1|s1]; simpl in *; auto.
    eapply quiet_trans; [exact Hc|apply quiet_add_f_trace]. }
  unfold trace_dispatch in *.
  destruct (tp_event tp) as [| | |arg].
  - destruct (has_f_trace s (tp_frame tp)); [|apply quiet_refl]. simpl in Hp.
    apply Hh. py_unfold. destruct (quitting s); [apply quiet_refl|]. simpl in Hp.
    unfold dispatch_line. py_unfold. rewrite Hp. apply quiet_refl.
  - apply Hh. py_unfold. destruct (quitting s); [apply quiet_refl|].
    apply dispatch_call_quiet.
  - destruct (has_f_trace s (tp_frame tp)); [|apply quiet_refl].
    apply Hh. py_unfold. destruct (quitting s); [apply quiet_refl|].
    apply dispatch_return_quiet.
  - destruct (has_f_trace s (tp_frame tp)); [|apply quiet_refl]. simpl in Hp.
    apply Hh. py_unfold. destruct (quitting s); [apply quiet_refl|]. simpl in Hp.
    unfold dispatch_exception. py_unfold.
    destruct (stop_here s (tp_frame tp)).
    + rewrite Hp. apply quiet_refl.
    + destruct (stopframe s) as [sf|]; [rewrite Hp|]; apply quiet_refl.
Qed.

(** ** From a pause to the end of [run_script] *)

Lemma run_script_eq (path : string) (tg : target) (s : State) :
  run_script path (inr tg) s =
  match run tg s with
  | Raised e s' =>
      if issubclass_BdbQuit (exc_type e) then Returned tt s'
      else if issubclass_Exception (exc_type e)
           then ui_queue_put (failure_state path e) s'
           else Raised e s'
  | r => r
  end.
Proof. reflexivity. Qed.

Lemma run_split (pre post : list trace_point) (tp : trace_point)
    (result : option BaseException) (s s1 : State) :
  deliver_all pre (started s) = Returned tt s1 ->
  exec (mkTarget (pre ++ tp :: post) result) (started s) =
  match deliver tp s1 with
  | Returned _ s2 => exec_points post result s2
  | Raised e s2 =>
      match tp_escape tp e with
      | Some e' => Raised e' s2
      | None => Returned tt s2
      end
  | Blocked s2 => Blocked s2
  end.
Proof.
  intros Hpre. unfold exec. cbn [tg_points tg_result].
  rewrite (@exec_points_app pre (tp :: post) result (started s) s1 Hpre).
  reflexivity.
Qed.




Lemma pauses_untraced (s : State) (tp : trace_point) :
  sys_trace s = false -> pauses s tp = false.
Proof. intros H. unfold pauses. now rewrite H. Qed.

(** C3 (no pause at all after ['continue']): when ['continue'] is taken
    at a pause, tracing is switched off: no later trace point makes the debugger pause, be it a
    line or an exception, and nothing more is taken from the command queue.
    The run then goes to its end; the only snapshot that can still follow
    is the one [run_script] puts when an exception derived from
    [Exception] escapes the top-level frame. *)
Theorem continue_suppresses_every_pause :
  forall (path : string) (pre post : list trace_point) (tp : trace_point)
         (result : option BaseException) (s s1 : State) (snap : Snapshot)
         (rest : list string),
    deliver_all pre (started s) = Returned tt s1 ->
    pauses s1 tp = true ->
    build_state (tp_frame tp) (exception_of (tp_event tp)) = inr snap ->
    cmd_queue s1 = "continue"%string :: rest ->
    exists s2,
      deliver tp s1 = Returned tt s2 /\
      history s2 = history s1 ++ [Put snap; Get "continue"%string] /\
      ui_queue s2 = ui_queue s1 ++ [snap] /\
      cmd_queue s2 = rest /\
      (forall tp', pauses s2 tp' = false) /\
      (forall points, deliver_all points s2 = Returned tt s2) /\
      run_script path (inr (mkTarget (pre ++ tp :: post) result)) s =
        match result with
        | None => Returned tt (finished s2)
        | Some e =>
            if issubclass_BdbQuit (exc_type e) then Returned tt (finished s2)
            else if issubclass_Exception (exc_type e)
                 then Returned tt
                        (with_history
                           (history s2 ++ [Put (failure_state path e)])
                           (with_ui_queue
                              (ui_queue s2 ++ [failure_state path e])
                              (finished s2)))
                 else Raised e (finished s2)
        end.
Proof.
  intros path pre post tp result s s1 snap rest Hpre Hp Hb Hq.
  destruct (@deliver_pause_continue s1 tp snap rest Hp Hb Hq)
    as (s2 & Hd & Ht & Hu & Hc & Hh).
  exists s2. split; [exact Hd|]. split; [exact Hh|].
  split; [exact Hu|]. split; [exact Hc|].
  split; [intros tp'; now apply pauses_untraced|].
  split; [intros points; now apply deliver_all_untraced|].
  rewrite run_script_eq, run_eq, (@run_split pre post tp result s s1 Hpre), Hd.
  rewrite (@exec_points_untraced post result s2 Ht).
  destruct result as [e|]; [|reflexivity]. cbv beta iota.
  destruct (issubclass_BdbQuit (exc_type e)) eqn:Hbq; cbv beta iota;
    [reflexivity|].
  rewrite Hbq.
  destruct (issubclass_Exception (exc_type e)); reflexivity.
Qed.

(** ['continue'] at the first line of [boom.py]. *)
Lemma continue_suppresses_every_pause_witness :
  exists s2,
    run_script "/tmp/boom.py" (inr boom_target) (initial_state ["continue"%string])
    = Returned tt s2 /\
    map exception (ui_queue s2) = [None; Some "boom"%string].
Proof.
  destruct (@continue_suppresses_every_pause "/tmp/boom.py"
              [point (boom_module 0) ev_call]
              (tl (tl (tg_points boom_target)))
              (point (boom_module 1) ev_line)
              (Some RuntimeError_boom)
              (initial_state ["continue"%string])
              (state_of (deliver_all [point (boom_module 0) ev_call]
                           (started (initial_state ["continue"%string]))))
              (mkSnapshot "/tmp/boom.py" 1 "<module>"
                 [("f", "<function f at 0x7f3a5c0>"%string)]
                 (_get_stack_info (boom_module 1)) None)
              [])
    as (s2 & Hd & Hh & Hu & Hc & Hp & Ha & Hrun);
    [vm_compute; reflexivity|vm_compute; reflexivity|vm_compute; reflexivity
    |vm_compute; reflexivity|].
  eexists. split; [exact Hrun|].
  cbn [ui_queue with_history with_ui_queue finished with_sys_trace with_quitting].
  rewrite Hu. vm_compute. reflexivity.
Defined.

(** C3: there is no break at the next exception.  In [boom.py], after
    ['continue'] is taken at line 1, the [KeyError] raised (and handled) at line 5 makes no pause:
    the only snapshots are the one of line 1 and the final one that
    [run_script] puts for the [RuntimeError] of line 8; the command
    ['step'] that follows is never taken.  With ['step'] instead of
    ['continue'] the same [KeyError] is shown. *)
Lemma continue_does_not_break_at_next_exception :
  exists s' t',
    run_script "/tmp/boom.py" (inr boom_target)
      (initial_state ["continue"; "step"]%string) = Returned tt s' /\
    map (fun x => (lineno x, exception x)) (ui_queue s') =
      [ (1%Z, None); (0%Z, Some "boom"%string) ] /\
    cmd_queue s' = ["step"%string] /\
    run_script "/tmp/boom.py" (inr boom_target)
      (initial_state ["step"; "step"; "step"; "step"; "step"]%string) = Blocked t' /\
    map (fun x => (lineno x, exception x)) (ui_queue t') =
      [ (1%Z, None); (3%Z, None); (2%Z, None); (4%Z, None); (5%Z, None);
        (5%Z, Some "'k'"%string) ].
Proof.
  do 2 eexists. split; [vm_compute; reflexivity|].
  split; [vm_compute; reflexivity|]. split; [vm_compute; reflexivity|].
  split; vm_compute; reflexivity.
Qed.




(** An exception outside [Exception] that escapes the target ([sys.exit()]
    in the script, say) leaves [run_script] without a snapshot. *)
Lemma escaping_SystemExit_yields_no_snapshot :
  forall (path : string) (tg : target) (e : BaseException) (s s1 : State),
    tg_result tg = Some e ->
    issubclass_Exception (exc_type e) = false ->
    issubclass_BdbQuit (exc_type e) = false ->
    deliver_all (tg_points tg) (started s) = Returned tt s1 ->
    run_script path (inr tg) s = Raised e (finished s1).
Proof.
  intros path tg e s s1 Hres Hexc Hbq Hall.
  rewrite run_script_eq, run_eq. unfold exec.
  rewrite <- (app_nil_r (tg_points tg)).
  rewrite (@exec_points_app (tg_points tg) [] (tg_result tg) (started s) s1 Hall).
  rewrite Hres. cbn [exec_points]. py_unfold. cbv beta iota.
  rewrite Hbq. cbv beta iota. now rewrite Hbq, Hexc.
Qed.

(** A failure of [open] or [compile] is reported the same way. *)
Lemma load_failure_yields_failure_snapshot :
  forall (path : string) (e : BaseException) (s : State),
    issubclass_Exception (exc_type e) = true ->
    issubclass_BdbQuit (exc_type e) = false ->
    run_script path (inl e) s =
    Returned tt (with_history (history s ++ [Put (failure_state path e)])
                   (with_ui_queue (ui_queue s ++ [failure_state path e]) s)).
Proof.
  intros path e s Hexc Hbq. unfold run_script. py_unfold. now rewrite Hbq, Hexc.
Qed.

(** C8 (for a target that lets [BdbQuit] through): when ['quit'] is taken
    at a pause and the target does not intercept the [BdbQuit] that the trace callback then raises, the run
    ends there: [Bdb.run] swallows [BdbQuit], [run_script] returns
    normally, and no snapshot follows the one of the pause. *)
Theorem quit_ends_the_run_silently :
  forall (path : string) (pre post : list trace_point) (tp : trace_point)
         (result : option BaseException) (s s1 : State) (snap : Snapshot)
         (rest : list string),
    deliver_all pre (started s) = Returned tt s1 ->
    pauses s1 tp = true ->
    build_state (tp_frame tp) (exception_of (tp_event tp)) = inr snap ->
    cmd_queue s1 = "quit"%string :: rest ->
    tp_escape tp BdbQuit_raised = Some BdbQuit_raised ->
    exists s2,
      deliver tp s1 = Raised BdbQuit_raised s2 /\
      run (mkTarget (pre ++ tp :: post) result) s = Returned tt (finished s2) /\
      run_script path (inr (mkTarget (pre ++ tp :: post) result)) s =
        Returned tt (finished s2) /\
      ui_queue (finished s2) = ui_queue s1 ++ [snap] /\
      history (finished s2) = history s1 ++ [Put snap; Get "quit"%string] /\
      cmd_queue (finished s2) = rest /\
      quitting (finished s2) = true /\
      sys_trace (finished s2) = false.
Proof.
  intros path pre post tp result s s1 snap rest Hpre Hp Hb Hq Hesc.
  destruct (@deliver_pause_quit s1 tp snap rest Hp Hb Hq)
    as (s2 & Hd & Ht & Hqt & Hu & Hc & Hh).
  exists s2. split; [exact Hd|].
  assert (Hrun : run (mkTarget (pre ++ tp :: post) result) s
                 = Returned tt (finished s2)).
  { rewrite run_eq, (@run_split pre post tp result s s1 Hpre), Hd, Hesc.
    reflexivity. }
  split; [exact Hrun|]. split; [now rewrite run_script_eq, Hrun|].
  simpl. auto.
Qed.

(** ['quit'] at line 3 of [boom.py]. *)
Lemma quit_ends_the_run_silently_witness :
  exists s2,
    run_script "/tmp/boom.py" (inr boom_target)
      (initial_state ["step"; "quit"; "step"]%string) = Returned tt s2 /\
    gets (history s2) = ["step"; "quit"]%string /\
    length (ui_queue s2) = 2 /\
    cmd_queue s2 = ["step"%string].
Proof.
  destruct (@quit_ends_the_run_silently "/tmp/boom.py"
              [point (boom_module 0) ev_call; point (boom_module 1) ev_line]
              (tl (tl (tl (tg_points boom_target))))
              (point (boom_module 3) ev_line)
              (Some RuntimeError_boom)
              (initial_state ["step"; "quit"; "step"]%string)
              (state_of
                 (deliver_all
                    [point (boom_module 0) ev_call; point (boom_module 1) ev_line]
                    (started (initial_state ["step"; "quit"; "step"]%string))))
              (mkSnapshot "/tmp/boom.py" 3 "<module>"
                 [("f", "<function f at 0x7f3a5c0>"%string)]
                 (_get_stack_info (boom_module 3)) None)
              ["step"%string])
    as (s2 & Hd & Hrun & Hscript & Hu & Hh & Hc & Hq & Ht);
    [vm_compute; reflexivity|vm_compute; reflexivity|vm_compute; reflexivity
    |vm_compute; reflexivity|reflexivity|].
  eexists. split; [exact Hscript|]. rewrite Hh, Hu, Hc.
  split; [vm_compute; reflexivity|]. split; [vm_compute; reflexivity|reflexivity].
Defined.

(** C8 does not hold when the target intercepts [BdbQuit].  In
    [guard.py] the command ['quit'] is taken at line 2, inside a [try]
    whose handler catches [Exception]: the target swallows [BdbQuit], goes
    on, and the [RuntimeError] of line 5 makes [run_script] put one more
    snapshot after the quit. *)
Lemma quit_intercepted_by_target_yields_snapshot :
  exists s',
    run_script "/tmp/guard.py" (inr guard_target)
      (initial_state ["step"; "quit"]%string) = Returned tt s' /\
    map (fun x => (lineno x, exception x)) (ui_queue s') =
      [ (1%Z, None); (2%Z, None); (0%Z, Some "later"%string) ] /\
    gets (history s') = ["step"; "quit"]%string /\
    map (fun x => match x with Put _ => "put" | Get c => c end) (history s') =
      ["put"; "step"; "put"; "quit"; "put"]%string.
Proof.
  eexists. split; [vm_compute; reflexivity|].
  split; [vm_compute; reflexivity|]. split; vm_compute; reflexivity.
Qed.

(* ===================================================================== *)
(** * The snapshot builder on sample frames *)
(* ===================================================================== *)





(* ===================================================================== *)
(** * The views *)
(* ===================================================================== *)



Lemma prefix_app (p s : string) : String.prefix p (p ++ s)%string = true.
Proof.
  induction p as [|a p IH]; simpl; [now destruct s|].
  destruct (ascii_dec a a) as [_|Hne]; [exact IH|now contradiction Hne].
Qed.









Lemma enumerate_nth {A} (l : list A) :
  forall (a n i j : nat) (x : A),
    nth_error (combine (seq a n) l) i = Some (j, x) -> j = a + i.
Proof.
  induction l as [|y l IH]; intros a n i j x H.
  - destruct (seq a n); destruct i; discriminate H.
  - destruct n as [|n]; [destruct i; discriminate H|].
    destruct i as [|i]; simpl in H.
    + inversion H. lia.
    + apply IH in H. lia.
Qed.

Lemma enumerate_length {A} (l : list A) : length (enumerate l) = length l.
Proof.
  unfold enumerate. rewrite length_combine, length_seq. apply Nat.min_id.
Qed.

(** X5: the stack view has one line per stack entry, and the line of
    entry 0, the innermost frame, is the only one that starts with the
    arrow; for the stack of a pause it has between 1 and 10 lines. *)
Theorem stack_view_marks_innermost_frame_only :
  forall (entries : list Entry.t),
    exists lines,
      update_stack entries = Markup (join_lines lines) /\
      length lines = length entries /\
      (forall i line, nth_error lines i = Some line ->
         (startswith line (arrow ++ " ") = true <-> i = 0)) /\
      (forall f, entries = _get_stack_info f ->
         1 <= length lines <= 10 /\ length lines = Nat.min 10 (depth f)).
Proof.
  intros entries. exists (map stack_line (enumerate entries)).
  split; [reflexivity|].
  split; [now rewrite length_map, enumerate_length|].
  split.
  - intros i line Hnth. rewrite nth_error_map in Hnth.
    destruct (nth_error (enumerate entries) i) as [[j fr]|] eqn:Hitem;
      [|discriminate Hnth].
    apply enumerate_nth in Hitem. simpl in Hitem. subst j.
    inversion Hnth; subst line; clear Hnth.
    unfold stack_line, startswith. destruct i as [|i]; cbn [Nat.eqb].
    + split; [reflexivity|intros _]. apply prefix_app.
    + split; [intros H; discriminate H|intros H; discriminate H].
  - intros f ->. rewrite length_map, enumerate_length.
    unfold _get_stack_info. rewrite length_firstn, stack_walk_length.
    rewrite (depth_eq f). lia.
Qed.





Lemma wait_for_command_step (f : frame) (s : State) (rest : list string) :
  cmd_queue s = "step"%string :: rest ->
  exists s',
    _wait_for_command f s = Returned tt s' /\
    stopframe s' = None /\ returnframe s' = None /\ stoplineno s' = 0%Z /\
    quitting s' = false /\ sys_trace s' = sys_trace s /\
    botframe s' = botframe s /\
    ui_queue s' = ui_queue s /\ cmd_queue s' = rest /\
    (forall g, has_f_trace s g = true -> has_f_trace s' g = true).
Proof.
  intros Hq. unfold _wait_for_command, cmd_queue_get. py_unfold. rewrite Hq.
  cbn [String.eqb Ascii.eqb Bool.eqb]. unfold set_step, _set_stopinfo. py_unfold.
  set (s1 := with_history _ _).
  destruct (frame_returning s1) as [fr|]; [destruct (f_back fr) as [cf|]|];
    py_unfold; eexists; (split; [reflexivity|]); cbn; repeat split; auto.
  all: unfold add_f_trace; destruct (existsb _ (f_trace s1)) eqn:Hin; cbn; auto.
  intros g Hg. unfold has_f_trace in *. cbn. rewrite Hg. apply orb_true_r.
Qed.

(* ===================================================================== *)
(** * Key actions and resume directives *)
(* ===================================================================== *)

(** X7: a pause that finds the command queue empty blocks; each key
    action of the observer then makes it return with the directive of
    that key: [step] clears the stop frame, [next] makes the paused frame
    the stop frame, [continue] switches tracing off, [quit] sets
    [quitting] (and the application exits). *)
Theorem key_actions_select_resume_directives :
  forall (f : frame) (s : State),
    cmd_queue s = [] ->
    _wait_for_command f s = Blocked s /\
    (exists s',
       _wait_for_command f (action_step s) = Returned tt s' /\
       stopframe s' = None /\ stoplineno s' = 0%Z /\ quitting s' = false /\
       sys_trace s' = sys_trace s /\ cmd_queue s' = []) /\
    (exists s',
       _wait_for_command f (action_next s) = Returned tt s' /\
       stopframe s' = Some f /\ stoplineno s' = 0%Z /\ quitting s' = false /\
       sys_trace s' = sys_trace s /\ cmd_queue s' = []) /\
    (exists s',
       _wait_for_command f (action_continue s) = Returned tt s' /\
       stopframe s' = botframe s /\ stoplineno s' = (-1)%Z /\
       quitting s' = false /\ sys_trace s' = false /\ cmd_queue s' = []) /\
    (forall app, exists s',
       _wait_for_command f (fst (action_quit_debugger s app)) = Returned tt s' /\
       stopframe s' = botframe s /\ quitting s' = true /\
       sys_trace s' = false /\ cmd_queue s' = [] /\
       exited (snd (action_quit_debugger s app)) = true).
Proof.
  intros f s Hq.
  split.
  { pose proof (wait_for_command_cases f s) as H. now rewrite Hq in H. }
  split.
  { assert (H : cmd_queue (action_step s) = ["step"%string])
      by (unfold action_step, cmd_queue_put; simpl; now rewrite Hq).
    destruct (@wait_for_command_step f (action_step s) [] H)
      as (s' & Hrun & H1 & H2 & H3 & H4 & H5 & H6 & H7 & H8 & _).
    exists s'. repeat split; auto. }
  split.
  { assert (H : cmd_queue (action_next s) = ["next"%string])
      by (unfold action_next, cmd_queue_put; simpl; now rewrite Hq).
    rewrite (@wait_for_command_next f (action_next s) [] H).
    eexists. split; [reflexivity|]. simpl. repeat split; reflexivity. }
  split.
  { unfold _wait_for_command, cmd_queue_get, action_continue, cmd_queue_put.
    py_unfold. cbn [cmd_queue with_cmd_queue]. rewrite Hq. cbn [List.app].
    cbn [String.eqb Ascii.eqb Bool.eqb]. rewrite set_continue_eq.
    eexists. split; [reflexivity|]. simpl. repeat split; reflexivity. }
  intros app.
  unfold _wait_for_command, cmd_queue_get, action_quit_debugger, cmd_queue_put.
  py_unfold. cbn [fst snd cmd_queue with_cmd_queue]. rewrite Hq. cbn [List.app].
  cbn [String.eqb Ascii.eqb Bool.eqb]. rewrite set_quit_eq.
  eexists. split; [reflexivity|]. simpl. repeat split; reflexivity.
Qed.

(** A pause in [boom.py] with no command waiting. *)
Lemma key_actions_select_resume_directives_witness :
  _wait_for_command (boom_module 3) (initial_state []) =
    Blocked (initial_state []) /\
  exists s',
    _wait_for_command (boom_module 3) (action_next (initial_state []))
    = Returned tt s' /\
    stopframe s' = Some (boom_module 3).
Proof.
  destruct (@key_actions_select_resume_directives (boom_module 3)
              (initial_state []) eq_refl)
    as (Hblock & _ & (s' & Hrun & Hsf & _) & _).
  split; [exact Hblock|]. exists s'. split; [exact Hrun|exact Hsf].
Defined.

Lemma has_f_trace_add (f : frame) (s : State) :
  has_f_trace (add_f_trace f s) f = true.
Proof.
  unfold has_f_trace, add_f_trace.
  destruct (existsb (Nat.eqb (f_id f)) (f_trace s)) eqn:Hin; [exact Hin|].
  simpl. now rewrite Nat.eqb_refl.
Qed.

Lemma has_f_trace_same_id (s : State) (f g : frame) :
  f_id f = f_id g -> has_f_trace s f = has_f_trace s g.
Proof. intros H. unfold has_f_trace. now rewrite H. Qed.

(** While single-stepping, a traced line pauses. *)
Lemma stepping_pauses_at_line (s : State) (tp : trace_point) :
  stopframe s = None -> quitting s = false -> sys_trace s = true ->
  has_f_trace s (tp_frame tp) = true ->
  tp_event tp = ev_line ->
  pauses s tp = true.
Proof.
  intros Hsf Hq Ht Hf Hev. unfold pauses, stop_here.
  now rewrite Ht, Hf, Hq, Hev, Hsf.
Qed.

(** While single-stepping, a call is traced from its first line on. *)
Lemma stepping_traces_callee (s : State) (tp : trace_point) :
  stopframe s = None -> quitting s = false -> sys_trace s = true ->
  tp_event tp = ev_call ->
  exists s',
    deliver tp s = Returned tt s' /\
    ui_queue s' = ui_queue s /\ cmd_queue s' = cmd_queue s /\
    history s' = history s /\
    stopframe s' = None /\ quitting s' = false /\ sys_trace s' = true /\
    has_f_trace s' (tp_frame tp) = true.
Proof.
  intros Hsf Hq Ht Hev. unfold deliver. py_unfold. rewrite Ht, Hev. cbn [negb].
  unfold trace_dispatch. py_unfold. rewrite Hq.
  unfold dispatch_call, stop_here. py_unfold. rewrite Hsf.
  destruct (botframe s) as [bf|]; cbn; py_unfold.
  - unfold raise_if_quitting, user_call. py_unfold. rewrite Hq. py_unfold.
    eexists. split; [reflexivity|].
    pose proof (has_f_trace_add (tp_frame tp) s) as Hadd.
    unfold add_f_trace in *. destruct (existsb _ (f_trace s)); simpl; auto 10.
  - eexists. split; [reflexivity|].
    pose proof (has_f_trace_add (tp_frame tp) (with_botframe (f_back (tp_frame tp)) s))
      as Hadd.
    unfold add_f_trace in *. cbn in *.
    destruct (existsb _ (f_trace s)); simpl; auto 10.
Qed.

(** X8: after ['step'] is taken at a pause, the very next traced line
    pauses, in whatever frame it lies; a call that comes first is traced,
    so the first line of the callee pauses, at any depth; and an exception
    raised in a traced frame that is not a generator pauses too. *)
Theorem step_into_pauses_at_next_line :
  forall (F : frame) (s0 : State) (rest : list string),
    cmd_queue s0 = "step"%string :: rest ->
    sys_trace s0 = true ->
    exists s,
      _wait_for_command F s0 = Returned tt s /\
      (forall tp, tp_event tp = ev_line ->
                  has_f_trace s (tp_frame tp) = true ->
                  pauses s tp = true) /\
      (forall tp arg, tp_event tp = ev_exception arg ->
                      has_f_trace s (tp_frame tp) = true ->
                      co_generator (f_code (tp_frame tp)) = false ->
                      pauses s tp = true) /\
      (forall tp, tp_event tp = ev_call ->
         exists s',
           deliver tp s = Returned tt s' /\
           ui_queue s' = ui_queue s /\ cmd_queue s' = cmd_queue s /\
           forall tp', tp_event tp' = ev_line ->
                       f_id (tp_frame tp') = f_id (tp_frame tp) ->
                       pauses s' tp' = true).
Proof.
  intros F s0 rest Hq Ht.
  destruct (@wait_for_command_step F s0 rest Hq)
    as (s & Hrun & Hsf & Hrf & Hln & Hqt & Hst & Hbf & Hu & Hc & Hft).
  rewrite Ht in Hst.
  exists s. split; [exact Hrun|]. split; [|split].
  - intros tp Hev Hf. now apply stepping_pauses_at_line.
  - intros tp arg Hev Hf Hgen. unfold pauses, stop_here.
    rewrite Hst, Hf, Hqt, Hev, Hsf, Hgen. reflexivity.
  - intros tp Hev.
    destruct (@stepping_traces_callee s tp Hsf Hqt Hst Hev)
      as (s' & Hd & Hu' & Hc' & _ & Hsf' & Hq' & Ht' & Hf').
    exists s'. split; [exact Hd|]. split; [exact Hu'|]. split; [exact Hc'|].
    intros tp' Hev' Hid. apply stepping_pauses_at_line; auto.
    now rewrite (has_f_trace_same_id s' _ _ Hid).
Qed.

(** ['step'] at line 3 of [boom.py], then the call of [f] and its first
    line. *)
Lemma step_into_pauses_at_next_line_witness :
  exists s s',
    _wait_for_command (boom_module 3)
      (mkState [] ["step"%string] (Some (boom_module 3)) (Some bdb_run_frame)
         None None 0 false None true [5] []) = Returned tt s /\
    deliver (point (boom_f 1) ev_call) s = Returned tt s' /\
    pauses s' (point (boom_f 2) ev_line) = true.
Proof.
  destruct (@step_into_pauses_at_next_line (boom_module 3)
              (mkState [] ["step"%string] (Some (boom_module 3)) (Some bdb_run_frame)
                 None None 0 false None true [5] [])
              [] eq_refl eq_refl)
    as (s & Hrun & _ & _ & Hcall).
  destruct (Hcall (point (boom_f 1) ev_call) eq_refl) as (s' & Hd & _ & _ & Hline).
  exists s, s'. split; [exact Hrun|]. split; [exact Hd|].
  apply Hline; reflexivity.
Defined.

(** The return of the frame that is stepped over switches to single
    stepping. *)
Lemma stepping_over_return (F : frame) (s : State) (tp : trace_point) :
  stepping_over F s -> sys_trace s = true ->
  has_f_trace s (tp_frame tp) = true ->
  f_id (tp_frame tp) = f_id F ->
  co_generator (f_code (tp_frame tp)) = false ->
  (0 <= f_lineno (tp_frame tp))%Z ->
  tp_event tp = ev_return ->
  exists s',
    deliver tp s = Returned tt s' /\
    ui_queue s' = ui_queue s /\ cmd_queue s' = cmd_queue s /\
    history s' = history s /\
    stopframe s' = None /\ quitting s' = false /\ sys_trace s' = true /\
    f_trace s' = f_trace s.
Proof.
  intros (Hsf & Hln & Hrf & Hq) Ht Hf Hid Hgen Hline Hev.
  apply Z.leb_le in Hline.
  unfold deliver. py_unfold. rewrite Ht, Hev, Hf. cbn [negb].
  unfold trace_dispatch. py_unfold. rewrite Hq.
  unfold dispatch_return, stop_here, raise_if_quitting, user_return, _set_stopinfo.
  py_unfold. rewrite Hsf, Hln, Hgen. cbn [frame_is].
  rewrite Hid, Nat.eqb_refl. cbn. rewrite Hline. cbn. rewrite Hq. cbn.
  rewrite Hsf, Hln. cbn. rewrite Hid, Nat.eqb_refl. cbn.
  unfold has_f_trace in Hf.
  eexists. split; [reflexivity|].
  unfold add_f_trace. cbn. rewrite Hf. cbn. auto 10.
Qed.

(** X9: after ['next'] is taken at a pause in a traced frame [F], the
    next line of [F] itself pauses; and when [F] (not a generator)
    returns first, the directive becomes single stepping, so that the
    next traced line, the one of the caller, pauses. *)
Theorem step_over_pauses_in_frame_or_after_return :
  forall (F : frame) (s0 : State) (rest : list string),
    cmd_queue s0 = "next"%string :: rest ->
    sys_trace s0 = true ->
    has_f_trace s0 F = true ->
    exists s,
      _wait_for_command F s0 = Returned tt s /\
      (forall tp, tp_event tp = ev_line ->
                  f_id (tp_frame tp) = f_id F ->
                  (0 <= f_lineno (tp_frame tp))%Z ->
                  pauses s tp = true) /\
      (forall tp, tp_event tp = ev_return ->
                  f_id (tp_frame tp) = f_id F ->
                  co_generator (f_code (tp_frame tp)) = false ->
                  (0 <= f_lineno (tp_frame tp))%Z ->
         exists s',
           deliver tp s = Returned tt s' /\
           ui_queue s' = ui_queue s /\ cmd_queue s' = cmd_queue s /\
           stopframe s' = None /\
           forall tp', tp_event tp' = ev_line ->
                       has_f_trace s' (tp_frame tp') = true ->
                       pauses s' tp' = true).
Proof.
  intros F s0 rest Hq Ht Hf.
  eexists. rewrite (wait_for_command_next F s0 Hq).
  match goal with |- Returned tt ?x = _ /\ _ => set (s := x) end.
  assert (Hs : stepping_over F s) by (unfold stepping_over, s; simpl; auto).
  assert (Hts : sys_trace s = true) by exact Ht.
  assert (Hfs : forall g, has_f_trace s g = has_f_trace s0 g) by reflexivity.
  split; [reflexivity|]. split.
  - intros tp Hev Hid Hline.
    apply (@stepping_over_pauses_in_frame F s tp Hs Hts); auto.
    now rewrite Hfs, (has_f_trace_same_id s0 _ _ Hid).
  - intros tp Hev Hid Hgen Hline.
    assert (Hftp : has_f_trace s (tp_frame tp) = true)
      by now rewrite Hfs, (has_f_trace_same_id s0 _ _ Hid).
    destruct (@stepping_over_return F s tp Hs Hts Hftp Hid Hgen Hline Hev)
      as (s' & Hd & Hu & Hc & _ & Hsf & Hqt & Ht' & _).
    exists s'. split; [exact Hd|]. split; [exact Hu|]. split; [exact Hc|].
    split; [exact Hsf|].
    intros tp' Hev' Hf'. now apply stepping_pauses_at_line.
Qed.

(** ['next'] in [f] of [boom.py], at line 2; [f] returns, and line 4 of
    the module pauses. *)
Lemma step_over_pauses_in_frame_or_after_return_witness :
  exists s s',
    _wait_for_command (boom_f 2)
      (mkState [] ["next"%string] (Some (boom_f 2)) (Some bdb_run_frame)
         None None 0 false None true [6; 5] []) = Returned tt s /\
    deliver (point (boom_f 2) ev_return) s = Returned tt s' /\
    pauses s' (point (boom_module 4) ev_line) = true.
Proof.
  destruct (@step_over_pauses_in_frame_or_after_return (boom_f 2)
              (mkState [] ["next"%string] (Some (boom_f 2)) (Some bdb_run_frame)
                 None None 0 false None true [6; 5] [])
              [] eq_refl eq_refl eq_refl)
    as (s & Hrun & _ & Hret).
  destruct (Hret (point (boom_f 2) ev_return) eq_refl eq_refl eq_refl)
    as (s' & Hd & Hu & Hc & Hsf & Hline).
  { simpl. lia. }
  exists s, s'. split; [exact Hrun|]. split; [exact Hd|].
  apply Hline; [reflexivity|].
  inversion Hrun; subst s. vm_compute in Hd. inversion Hd. reflexivity.
Defined.

(* ===================================================================== *)
(** * The end of the script thread *)
(* ===================================================================== *)




(** X11: when [open], [read] or [compile] raises, the debugger is never
    started: the stepping and tracing state and the command queue are as
    before.  An exception derived from [Exception] (a [SyntaxError] of the
    script, an [OSError] of [open]) is reported by one snapshot that
    carries its text, no locals and no stack; any other is raised out of
    [run_script] with nothing put. *)
Theorem load_failure_reported_without_starting_debugger :
  forall (path : string) (e : BaseException) (s : State),
    issubclass_BdbQuit (exc_type e) = false ->
    let o := run_script path (inl e) s in
    same_directive s (state_of o) /\
    cmd_queue (state_of o) = cmd_queue s /\
    (if issubclass_Exception (exc_type e)
     then exists s', o = Returned tt s' /\
                     ui_queue s' = ui_queue s ++ [failure_state path e] /\
                     exception (failure_state path e) = Some (exc_text e) /\
                     locals (failure_state path e) = [] /\
                     stack (failure_state path e) = []
     else o = Raised e s).
Proof.
  intros path e s Hbq o. subst o.
  unfold run_script. py_unfold. rewrite Hbq.
  destruct (issubclass_Exception (exc_type e)); cbn.
  - split; [unfold same_directive; cbn; auto 10|]. split; [reflexivity|].
    eexists. split; [reflexivity|]. cbn. auto.
  - split; [unfold same_directive; auto 10|]. split; reflexivity.
Qed.

(** A script that does not compile. *)
Lemma load_failure_reported_without_starting_debugger_witness :
  exists s',
    run_script "/tmp/bad.py"
      (inl (mkExc (OtherException "SyntaxError") "invalid syntax (bad.py, line 1)"))
      (initial_state []) = Returned tt s' /\
    map exception (ui_queue s') = [Some "invalid syntax (bad.py, line 1)"%string].
Proof.
  destruct (@load_failure_reported_without_starting_debugger "/tmp/bad.py"
              (mkExc (OtherException "SyntaxError") "invalid syntax (bad.py, line 1)")
              (initial_state []) eq_refl)
    as (_ & _ & s' & Hrun & Hu & _).
  exists s'. split; [exact Hrun|]. rewrite Hu. reflexivity.
Defined.

(** X12: the queue traffic of a whole script thread, whatever the script
    and the commands: a sequence of pauses, each one snapshot put followed
    by one command taken, and after them at most one more snapshot (the
    one of a pause still waiting for its command, or the final one of
    [run_script]).  So the snapshots put are as many as the commands taken,
    or one more. *)
Theorem script_thread_traffic :
  forall (path : string) (loaded : pyresult target) (s : State),
    let s' := state_of (run_script path loaded s) in
    exists (io : list io_event) (last_put : list Snapshot),
      paired io /\
      traffic s s' (io ++ map Put last_put) /\
      length last_put <= 1 /\
      length (ui_queue s') =
        length (ui_queue s) + length (gets io) + length last_put /\
      length (cmd_queue s) = length (gets io) + length (cmd_queue s').
Proof.
  intros path loaded s s'.
  assert (Hmain : exists io last_put,
             paired io /\ traffic s s' (io ++ map Put last_put) /\
             length last_put <= 1).
  { subst s'. destruct loaded as [e|tg].
    - exists []. unfold run_script. py_unfold.
      destruct (issubclass_BdbQuit (exc_type e));
        [|destruct (issubclass_Exception (exc_type e))].
      + exists []. split; [constructor|]. split; [apply traffic_refl|auto].
      + exists [failure_state path e]. split; [constructor|].
        split; [|auto]. unfold traffic; cbn. auto.
      + exists []. split; [constructor|]. split; [apply traffic_refl|auto].
    - rewrite run_script_eq. pose proof (run_keeps_protocol tg s) as Hr.
      destruct (run tg s) as [[] s1|e s1|s1]; cbn in Hr.
      + destruct Hr as (io & Hp & Ht & _). exists io, [].
        cbn. rewrite app_nil_r. auto.
      + destruct Hr as (io & Hp & Ht & _).
        destruct (issubclass_BdbQuit (exc_type e));
          [|destruct (issubclass_Exception (exc_type e))].
        * exists io, []. cbn. rewrite app_nil_r. auto.
        * exists io, [failure_state path e]. split; [exact Hp|]. split; [|auto].
          apply (traffic_trans Ht). unfold traffic; cbn. auto.
        * exists io, []. cbn. rewrite app_nil_r. auto.
      + destruct Hr as (io & snap & Hp & Ht). exists io, [snap]. cbn. auto. }
  destruct Hmain as (io & last_put & Hp & Ht & Hl).
  exists io, last_put. split; [exact Hp|]. split; [exact Ht|]. split; [exact Hl|].
  destruct Ht as (_ & Hu & Hc).
  assert (Hputs : puts (map Put last_put) = last_put)
    by (clear; induction last_put; cbn; congruence).
  assert (Hgets : gets (map Put last_put) = [])
    by (clear; induction last_put; cbn; congruence).
  rewrite puts_app, Hputs in Hu. rewrite gets_app, Hgets, app_nil_r in Hc.
  rewrite Hu, Hc, !length_app, (paired_balanced Hp). lia.
Qed.

(* ===================================================================== *)
(** * More on the snapshot builder *)
(* ===================================================================== *)

(** The loop of [_safe_repr_dict] never looks at a binding with a
    reserved name. *)
Lemma safe_repr_loop_filter (items : list (string * object)) :
  forall acc,
    _safe_repr_loop items acc =
    _safe_repr_loop (filter (fun kv => negb (dunder (fst kv))) items) acc.
Proof.
  induction items as [|[k v] items IH]; intros acc; [reflexivity|].
  rewrite safe_repr_loop_cons. cbn [filter fst].
  destruct (dunder k) eqn:Hd; cbn [negb]; [apply IH|].
  rewrite safe_repr_loop_cons, Hd.
  destruct v as [t|e]; [apply IH|].
  destruct (issubclass_Exception (exc_type e)); [apply IH|reflexivity].
Qed.

(** X13: the bindings whose name begins with a double underscore have no
    influence on the snapshot builder: two mappings with the same other
    bindings give the same result, also when one of them binds a reserved
    name to a value whose [__repr__] raises ([repr] is never called on
    it). *)
Theorem reserved_names_never_rendered :
  forall (d d' : dict object),
    filter (fun kv => negb (dunder (fst kv))) d =
    filter (fun kv => negb (dunder (fst kv))) d' ->
    _safe_repr_dict d = _safe_repr_dict d'.
Proof.
  intros d d' H. unfold _safe_repr_dict.
  rewrite (safe_repr_loop_filter d), (safe_repr_loop_filter d'). now rewrite H.
Qed.

(** The locals of [sample_frame], where [__class__] is bound to a value
    whose [__repr__] raises [SystemExit], render as if it were absent. *)
Lemma reserved_names_never_rendered_witness :
  _safe_repr_dict (f_locals sample_frame) =
  _safe_repr_dict (List.tl (f_locals sample_frame)).
Proof.
  apply (@reserved_names_never_rendered (f_locals sample_frame)
           (List.tl (f_locals sample_frame))).
  vm_compute; reflexivity.
Defined.






(* ===================================================================== *)
(** * Where snapshots are put *)
(* ===================================================================== *)

(** X16: one trace event puts a snapshot exactly when it makes the
    debugger pause: tracing is on, the frame has a local trace function,
    the debugger is not quitting, and the event is a line or an exception
    at which bdb's stop test holds.  Then the snapshot is the one built
    from the frame of the event, and the oldest command is taken, the call
    staying blocked while there is none; when a [__repr__] raises outside
    [Exception] instead, nothing is put or taken and tracing is switched
    off.  An event that does not pause (every call and return event among
    them) moves nothing on either queue and never blocks. *)
Theorem snapshot_put_exactly_at_pauses :
  forall (s : State) (tp : trace_point),
    let s' := state_of (deliver tp s) in
    if pauses s tp then
      match build_state (tp_frame tp) (exception_of (tp_event tp)) with
      | inr snap =>
          ui_queue s' = ui_queue s ++ [snap] /\
          cmd_queue s' = List.tl (cmd_queue s) /\
          (deliver tp s = Blocked s' <-> cmd_queue s = [])
      | inl e =>
          deliver tp s = Raised e s' /\
          ui_queue s' = ui_queue s /\ cmd_queue s' = cmd_queue s /\
          sys_trace s' = false
      end
    else
      ui_queue s' = ui_queue s /\ cmd_queue s' = cmd_queue s /\
      deliver tp s <> Blocked s'.
Proof.
  intros s tp s'. subst s'.
  destruct (pauses s tp) eqn:Hp.
  - rewrite (deliver_pauses s tp Hp). py_unfold.
    rewrite (trace_dispatch_pauses s tp Hp). unfold pause. py_unfold.
    rewrite update_ui_eq.
    destruct (build_state (tp_frame tp) (exception_of (tp_event tp)))
      as [e|snap].
    + cbn. auto.
    + set (s2 := with_history _ _).
      pose proof (wait_for_command_cases (tp_frame tp) s2) as Hw.
      assert (Hc2 : cmd_queue s2 = cmd_queue s) by reflexivity.
      assert (Hu2 : ui_queue s2 = ui_queue s ++ [snap]) by reflexivity.
      rewrite Hc2 in Hw. destruct (cmd_queue s) as [|cmd rest].
      * rewrite Hw. cbn [state_of List.tl]. split; [exact Hu2|].
        split; [exact Hc2|]. split; auto.
      * destruct Hw as (s3 & -> & _ & Hc3 & Hu3). cbv beta iota.
        unfold raise_if_quitting. py_unfold.
        destruct (quitting s3); cbn [state_of List.tl].
        -- cbn. rewrite Hu3, Hu2. split; [reflexivity|].
           split; [exact Hc3|]. split; discriminate.
        -- unfold add_f_trace. py_unfold.
           destruct (existsb (Nat.eqb (f_id (tp_frame tp))) (f_trace s3));
             cbn; rewrite Hu3, Hu2;
             (split; [reflexivity|]); (split; [exact Hc3|]); split; discriminate.
  - pose proof (deliver_no_pause s tp Hp) as Hq.
    destruct (deliver tp s) as [[] s1|e s1|s1]; cbn in Hq |- *;
      [| |contradiction];
      destruct Hq as (Hu & Hc & _); (split; [exact Hu|]);
      (split; [exact Hc|]); discriminate.
Qed.
